(** * Vappi voice bot backend: the request handlers of [app.py]

    A shallow embedding of the three Flask handlers ([health_check],
    [generate_voice], [book_appointment]) together with the parts of the
    Python runtime and of the libraries they call (JSON values and the
    builtin operations applied to them, [datetime.fromisoformat],
    [datetime.isoformat], [pytz]'s [localize], [requests.post]), followed
    by the properties of the booking and voice workflows.

    Conventions.
    - A Python [str] is a [string]; one character of the [string] stands for
      one code point (so the model covers code points below 256).
    - A Python [int] is a [Z].
    - An expression that can raise evaluates to a [result]: [Returns v] or
      [Raises e], where [e] records the exception class and [str(e)].
    - The handlers run in the monad [M]: they read the network (what each
      outbound POST is answered with), append to the list of outbound calls
      made so far, and may raise. *)

From Stdlib Require Import ZArith String Ascii List Bool Lia.
From Stdlib Require Import Floats.SpecFloat.
From stdpp Require Import base strings gmap list option.

Set Warnings "-register-all".

Open Scope Z_scope.

(** ** Exceptions and results *)

Inductive exn_class : Type :=
| TypeError
| ValueError
| KeyError
| AttributeError
| OverflowError
| RecursionError
| LibraryError (name : string).

(** [exn_msg e] is [str(e)]. *)
Record exn : Type := Exn { exn_cls : exn_class; exn_msg : string }.

Inductive result (A : Type) : Type :=
| Returns (a : A)
| Raises (e : exn).
Arguments Returns {A} a.
Arguments Raises {A} e.

Definition result_bind {A B} (r : result A) (k : A -> result B) : result B :=
  match r with
  | Returns a => k a
  | Raises e => Raises e
  end.

Definition is_returns {A} (r : result A) : bool :=
  match r with Returns _ => true | Raises _ => false end.

(** ** Python strings *)

Module Str.

Definition len (s : string) : Z := Z.of_nat (String.length s).

(** [s[i:j]] for [0 <= i], [0 <= j]. *)
Definition slice (s : string) (i j : Z) : string :=
  String.substring (Z.to_nat i) (Z.to_nat (j - i)) s.

(** [s[i:]] for [0 <= i]. *)
Definition slice_from (s : string) (i : Z) : string :=
  String.substring (Z.to_nat i) (String.length s - Z.to_nat i) s.

(** [s[i]] for [0 <= i < len(s)]; [None] when out of range. *)
Definition at_ (s : string) (i : Z) : option ascii :=
  if i <? 0 then None else String.get (Z.to_nat i) s.

Definition char_is (c : ascii) (o : option ascii) : bool :=
  match o with Some a => Ascii.eqb a c | None => false end.

(** [s.find(c)] for a one-character [c]: the first index, or [-1]. *)
Fixpoint find (c : ascii) (s : string) : Z :=
  match s with
  | EmptyString => -1
  | String a s' =>
      if Ascii.eqb a c then 0
      else let r := find c s' in if r <? 0 then -1 else r + 1
  end.

(** [sub in s] for strings. *)
Fixpoint contains (sub s : string) : bool :=
  String.prefix sub s ||
  match s with
  | EmptyString => false
  | String _ s' => contains sub s'
  end.

(** [s.split(c)] with an explicit one-character separator: every
    occurrence of [c] ends a piece, so adjacent separators and separators
    at either end give empty pieces, and the result is never empty. *)
Fixpoint split (c : ascii) (s : string) : list string :=
  match s with
  | EmptyString => [EmptyString]
  | String a s' =>
      if Ascii.eqb a c then EmptyString :: split c s'
      else match split c s' with
           | piece :: rest => String a piece :: rest
           | [] => [String a EmptyString]
           end
  end.

(** [sep.join(l)]. *)
Fixpoint join (sep : string) (l : list string) : string :=
  match l with
  | [] => EmptyString
  | [x] => x
  | x :: rest => x +:+ sep +:+ join sep rest
  end.

(** Decimal digits of a natural number, most significant first:
    [digits n fuel] writes the [fuel] lowest digits. *)
Definition digit_char (d : Z) : ascii :=
  ascii_of_nat (48 + Z.to_nat d).

Fixpoint digits_fixed (width : nat) (n : Z) (acc : string) : string :=
  match width with
  | O => acc
  | S w => digits_fixed w (n / 10) (String (digit_char (n mod 10)) acc)
  end.

Fixpoint digits_free (fuel : nat) (n : Z) (acc : string) : string :=
  match fuel with
  | O => acc
  | S f =>
      let acc' := String (digit_char (n mod 10)) acc in
      if n <? 10 then acc' else digits_free f (n / 10) acc'
  end.

(** ["%d" % n] for [0 <= n]. *)
Definition of_nonneg (n : Z) : string :=
  digits_free (S (Z.to_nat (Z.log2 n))) n EmptyString.

(** ["%d" % n]. *)
Definition of_int (n : Z) : string :=
  if n <? 0 then String "-" (of_nonneg (- n)) else of_nonneg n.

(** ["%0wd" % n] for [0 <= n]: at least [w] digits, zero padded. *)
Definition zero_padded (w : nat) (n : Z) : string :=
  let s := of_nonneg n in
  if (String.length s <? w)%nat then digits_fixed w n EmptyString else s.

Definition hex_char (d : Z) : ascii :=
  if d <? 10 then digit_char d else ascii_of_nat (87 + Z.to_nat d).

(** [repr(s)]: single quotes unless the string has a single quote and no
    double quote; backslash, the chosen quote, newline, carriage return
    and tab are escaped with a backslash, other characters that are not
    printable as [\xNN]. *)
Definition printable (a : ascii) : bool :=
  let n := Z.of_nat (nat_of_ascii a) in
  ((32 <=? n) && (n <=? 126)) || ((161 <=? n) && negb (n =? 173)).

Fixpoint repr_body (quote : ascii) (s : string) : string :=
  match s with
  | EmptyString => EmptyString
  | String a s' =>
      let n := Z.of_nat (nat_of_ascii a) in
      let rest := repr_body quote s' in
      if Ascii.eqb a quote || Ascii.eqb a "\" then String "\" (String a rest)
      else if n =? 10 then String "\" (String "n" rest)
      else if n =? 13 then String "\" (String "r" rest)
      else if n =? 9 then String "\" (String "t" rest)
      else if printable a then String a rest
      else String "\" (String "x" (String (hex_char (n / 16))
                                     (String (hex_char (n mod 16)) rest)))
  end.

Definition double_quote : ascii := ascii_of_nat 34.

Definition repr (s : string) : string :=
  let quote : ascii :=
    if (0 <=? find "'" s) && (find double_quote s <? 0) then double_quote
    else "'"%char in
  String quote (repr_body quote s) +:+ String quote EmptyString.

End Str.

(** ** JSON values as Python objects

    What [request.get_json()] and [response.json()] return, and what
    [jsonify] and [requests.post(json=...)] take: [None], [bool], [int],
    [float], [str], [list] and [dict] with string keys. *)

Inductive json : Type :=
| JNull
| JBool (b : bool)
| JInt (z : Z)
| JFloat (f : spec_float)
| JString (s : string)
| JArray (l : list json)
| JObject (m : gmap string json).

Module Py.

(** [type(v).__name__]. *)
Definition type_name (v : json) : string :=
  match v with
  | JNull => "NoneType"
  | JBool _ => "bool"
  | JInt _ => "int"
  | JFloat _ => "float"
  | JString _ => "str"
  | JArray _ => "list"
  | JObject _ => "dict"
  end.

(** [bool(v)]: the truth value used by [not], [or] and [all]. *)
Definition truthy (v : json) : bool :=
  match v with
  | JNull => false
  | JBool b => b
  | JInt z => negb (z =? 0)
  | JFloat f => match f with S754_zero _ => false | _ => true end
  | JString s => negb (String.eqb s "")
  | JArray l => match l with [] => false | _ => true end
  | JObject m => negb (bool_decide (m = ∅))
  end.

Definition is_str (k : string) (v : json) : bool :=
  match v with JString s => String.eqb s k | _ => false end.

(** [k in v] for a string [k]: key membership on a dict, element
    membership on a list, substring test on a string; the other types are
    not containers. *)
Definition contains (k : string) (v : json) : result bool :=
  match v with
  | JObject m => Returns (bool_decide (is_Some (m !! k)))
  | JArray l => Returns (existsb (is_str k) l)
  | JString s => Returns (Str.contains k s)
  | _ => Raises (Exn TypeError
           ("argument of type '" +:+ type_name v +:+ "' is not iterable"))
  end.

(** [v[k]] for a string [k]. *)
Definition getitem (v : json) (k : string) : result json :=
  match v with
  | JObject m =>
      match m !! k with
      | Some x => Returns x
      | None => Raises (Exn KeyError (Str.repr k))
      end
  | JArray _ =>
      Raises (Exn TypeError "list indices must be integers or slices, not str")
  | JString _ =>
      Raises (Exn TypeError "string indices must be integers, not 'str'")
  | _ => Raises (Exn TypeError
           ("'" +:+ type_name v +:+ "' object is not subscriptable"))
  end.

(** [v[:n]]: a prefix of a string or of a list. *)
Definition slice_to (v : json) (n : nat) : result json :=
  match v with
  | JString s => Returns (JString (String.substring 0 n s))
  | JArray l => Returns (JArray (take n l))
  | JObject _ => Raises (Exn TypeError "unhashable type: 'slice'")
  | _ => Raises (Exn TypeError
           ("'" +:+ type_name v +:+ "' object is not subscriptable"))
  end.

Definition no_attribute {A} (v : json) (attr : string) : result A :=
  Raises (Exn AttributeError
    ("'" +:+ type_name v +:+ "' object has no attribute '" +:+ attr +:+ "'")).

(** [v.split(' ')]: only strings have the method. *)
Definition split_space (v : json) : result (list string) :=
  match v with
  | JString s => Returns (Str.split " " s)
  | _ => no_attribute v "split"
  end.

(** [v.get(k)] and [v.get(k, d)]: only dicts have the method; a missing
    key gives [None], or the default [d]. *)
Definition get (v : json) (k : string) : result json :=
  match v with
  | JObject m => Returns (default JNull (m !! k))
  | _ => no_attribute v "get"
  end.

Definition get_default (v : json) (k : string) (d : json) : result json :=
  match v with
  | JObject m => Returns (default d (m !! k))
  | _ => no_attribute v "get"
  end.

(** A dict display [{k1: v1, ..., kn: vn}]: later keys overwrite. *)
Definition dict_map (kvs : list (string * json)) : gmap string json :=
  fold_left (fun m kv => <[kv.1 := kv.2]> m) kvs ∅.

Definition dict (kvs : list (string * json)) : json := JObject (dict_map kvs).

(** Truth value of an environment variable read with [os.getenv]:
    unset ([None]) and empty are false. *)
Definition env_truthy (v : option string) : bool :=
  match v with
  | None => false
  | Some s => negb (String.eqb s "")
  end.

End Py.

(** ** [datetime]: calendar arithmetic, [fromisoformat], [isoformat]

    The model follows CPython 3.11 ([Modules/_datetimemodule.c], mirrored by
    [Lib/datetime.py]).  The parser works on the UTF-8 encoding of the
    string, a buffer ended by a NUL byte, and the helper names are those of
    the C functions. *)

Module Datetime.

Definition MINYEAR : Z := 1.
Definition MAXYEAR : Z := 9999.

(** A fixed-offset [datetime.timezone] (offset in microseconds), or one of
    [pytz]'s per-period tzinfo objects, identified by its UTC offset and
    DST offset in seconds and its abbreviation. *)
Inductive tzinfo : Type :=
| Timezone (offset_us : Z)
| PytzInfo (utcoffset dst : Z) (tzname : string).

Record datetime : Type := mkdatetime {
  year : Z; month : Z; day : Z;
  hour : Z; minute : Z; second : Z; microsecond : Z;
  tz : option tzinfo
}.

Definition is_leap (y : Z) : bool :=
  (y mod 4 =? 0) && (negb (y mod 100 =? 0) || (y mod 400 =? 0)).

(** The integer divisions of the C code truncate towards zero. *)
Definition days_before_year (y0 : Z) : Z :=
  let y := y0 - 1 in
  y * 365 + Z.quot y 4 - Z.quot y 100 + Z.quot y 400.

Definition _days_in_month : list Z :=
  [0; 31; 28; 31; 30; 31; 30; 31; 31; 30; 31; 30; 31].

Definition _days_before_month : list Z :=
  [0; 0; 31; 59; 90; 120; 151; 181; 212; 243; 273; 304; 334].

Definition table (t : list Z) (i : Z) : Z := nth (Z.to_nat i) t 0.

Definition days_in_month (y m : Z) : Z :=
  if (m =? 2) && is_leap y then 29 else table _days_in_month m.

Definition days_before_month (y m : Z) : Z :=
  table _days_before_month m + (if (2 <? m) && is_leap y then 1 else 0).

Definition ymd_to_ord (y m d : Z) : Z :=
  days_before_year y + days_before_month y m + d.

Definition DI4Y : Z := 1461.
Definition DI100Y : Z := 36524.
Definition DI400Y : Z := 146097.

Definition ord_to_ymd (ordinal : Z) : Z * Z * Z :=
  let n := ordinal - 1 in
  let n400 := Z.quot n DI400Y in
  let n := Z.rem n DI400Y in
  let n100 := Z.quot n DI100Y in
  let n := Z.rem n DI100Y in
  let n4 := Z.quot n DI4Y in
  let n := Z.rem n DI4Y in
  let n1 := Z.quot n 365 in
  let n := Z.rem n 365 in
  let y := n400 * 400 + 1 + n100 * 100 + n4 * 4 + n1 in
  if (n1 =? 4) || (n100 =? 4) then (y - 1, 12, 31)
  else
    let leapyear := (n1 =? 3) && (negb (n4 =? 24) || (n100 =? 3)) in
    let m := Z.shiftr (n + 50) 5 in
    let preceding :=
      table _days_before_month m + (if (2 <? m) && leapyear then 1 else 0) in
    if n <? preceding
    then (y, m - 1, n - (preceding - days_in_month y (m - 1)) + 1)
    else (y, m, n - preceding + 1).

(** Monday is 0. *)
Definition weekday (y m d : Z) : Z := Z.rem (ymd_to_ord y m d + 6) 7.

Definition iso_week1_monday (y : Z) : Z :=
  let first_day := ymd_to_ord y 1 1 in
  let first_weekday := Z.rem (first_day + 6) 7 in
  let week1_monday := first_day - first_weekday in
  if 3 <? first_weekday then week1_monday + 7 else week1_monday.

(** [None] for a week or weekday out of range. *)
Definition iso_to_ymd (iso_year iso_week iso_day : Z) : option (Z * Z * Z) :=
  let week_ok :=
    if (iso_week <=? 0) || (53 <=? iso_week) then
      (iso_week =? 53) &&
      (let first_weekday := weekday iso_year 1 1 in
       (first_weekday =? 3) || ((first_weekday =? 2) && is_leap iso_year))
    else true in
  if negb week_ok then None
  else if (iso_day <=? 0) || (8 <=? iso_day) then None
  else
    let day_1 := iso_week1_monday iso_year in
    let day_offset := (iso_week - 1) * 7 + iso_day - 1 in
    Some (ord_to_ymd (day_1 + day_offset)).

(** *** The UTF-8 buffer *)

Definition code (a : ascii) : Z := Z.of_nat (nat_of_ascii a).

Fixpoint utf8 (s : string) : list Z :=
  match s with
  | EmptyString => []
  | String a s' =>
      let c := code a in
      if c <? 128 then c :: utf8 s'
      else Z.lor 192 (Z.shiftr c 6) :: Z.lor 128 (Z.land c 63) :: utf8 s'
  end.

(** [buf[p]]; the byte after the last one is the terminating NUL. *)
Definition byte (buf : list Z) (p : Z) : Z :=
  if p <? 0 then 0 else nth (Z.to_nat p) buf 0.

Definition is_digit (c : Z) : bool := (48 <=? c) && (c <=? 57).

Definition ch (c : string) : Z :=
  match c with String a _ => code a | EmptyString => 0 end.

(** [parse_digits(p, n, &var)]: [n] decimal digits from position [p];
    the position after them and their value, or [None]. *)
Fixpoint parse_digits (buf : list Z) (p : Z) (n : nat) (acc : Z)
  : option (Z * Z) :=
  match n with
  | O => Some (p, acc)
  | S n' =>
      let c := byte buf p in
      if is_digit c then parse_digits buf (p + 1) n' (acc * 10 + (c - 48))
      else None
  end.

Fixpoint skip_digits (fuel : nat) (buf : list Z) (p : Z) : Z :=
  match fuel with
  | O => p
  | S f => if is_digit (byte buf p) then skip_digits f buf (p + 1) else p
  end.

(** Where the date ends: decided by the characters at 4 and 5, and for
    week dates by what follows. [None] for the C function's [-1]. *)
Definition _find_isoformat_datetime_separator (buf : list Z) (len : Z)
  : option Z :=
  if len =? 7 then Some 7
  else if byte buf 4 =? ch "-" then
    if byte buf 5 =? ch "W" then
      if len <? 8 then None
      else if (8 <? len) && (byte buf 8 =? ch "-") then
        if len =? 9 then None
        else if (10 <? len) && is_digit (byte buf 10) then Some 8
        else Some 10
      else Some 8
    else Some 10
  else if byte buf 4 =? ch "W" then
    let idx := skip_digits (Z.to_nat len) buf 7 in
    if idx <? 9 then Some idx
    else if idx mod 2 =? 0 then Some 7 else Some 8
  else Some 8.

(** [parse_isoformat_date]: the date in the first [len] bytes. *)
Definition parse_isoformat_date (buf : list Z) (len : Z)
  : option (Z * Z * Z) :=
  '(cur, y) ← parse_digits buf 0 4 0;
  let uses_separator := byte buf cur =? ch "-" in
  let cur := if uses_separator then cur + 1 else cur in
  if byte buf cur =? ch "W" then
    '(cur, iso_week) ← parse_digits buf (cur + 1) 2 0;
    if (7 + (if uses_separator then 1 else 0)) <? len then
      if uses_separator && negb (byte buf cur =? ch "-") then None
      else
        let cur := if uses_separator then cur + 1 else cur in
        '(_, iso_day) ← parse_digits buf cur 1 0;
        iso_to_ymd y iso_week iso_day
    else iso_to_ymd y iso_week 1
  else
    '(cur, m) ← parse_digits buf cur 2 0;
    if uses_separator && negb (byte buf cur =? ch "-") then None
    else
      let cur := if uses_separator then cur + 1 else cur in
      '(_, d) ← parse_digits buf cur 2 0;
      Some (y, m, d).

(** [parse_hh_mm_ss_ff(tstr, tstr_end, ...)]: [HH[:MM[:SS]]] or
    [HH[MM[SS]]] between [p] and [p_end], then an optional fraction after
    a dot or a comma, of which six digits are kept.  The loop leaves
    either with the C function's return value (whether it stopped before
    the NUL) or at the start of a fraction. *)
Inductive hms_exit : Type :=
| Done (stopped_early : bool) (vals : list Z)
| Fraction (p : Z) (vals : list Z).

Fixpoint hms_loop (buf : list Z) (p_end : Z) (n : nat) (i : Z)
    (has_separator : bool) (p : Z) (vals : list Z) : option hms_exit :=
  match n with
  | O => Some (Fraction p vals)
  | S n' =>
      '(p, v) ← parse_digits buf p 2 0;
      let vals := vals ++ [v] in
      let c := byte buf p in
      let p := p + 1 in
      let has_separator := if i =? 0 then c =? ch ":" else has_separator in
      if p_end <=? p then Some (Done (negb (c =? 0)) vals)
      else if has_separator && (c =? ch ":")
      then hms_loop buf p_end n' (i + 1) has_separator p vals
      else if (c =? ch ".") || (c =? ch ",") then Some (Fraction p vals)
      else if negb has_separator
      then hms_loop buf p_end n' (i + 1) has_separator (p - 1) vals
      else None
  end.

Definition correction : list Z := [100000; 10000; 1000; 100; 10].

(** The result: whether the parse stopped before the NUL, and
    [hour, minute, second, microsecond]. *)
Definition parse_hh_mm_ss_ff (buf : list Z) (p p_end : Z)
  : option (bool * (Z * Z * Z * Z)) :=
  ex ← hms_loop buf p_end 3 0 true p [];
  match ex with
  | Done stopped vals =>
      Some (stopped, (nth 0 vals 0, nth 1 vals 0, nth 2 vals 0, 0))
  | Fraction p vals =>
      let len_remains := p_end - p in
      let to_parse := if 6 <=? len_remains then 6 else len_remains in
      '(p', us) ← parse_digits buf p (Z.to_nat to_parse) 0;
      let us :=
        if to_parse <? 6 then us * nth (Z.to_nat (to_parse - 1)) correction 0
        else us in
      let p' := skip_digits (length buf) buf p' in
      Some (negb (byte buf p' =? 0),
            (nth 0 vals 0, nth 1 vals 0, nth 2 vals 0, us))
  end.

Definition is_tz_marker (c : Z) : bool :=
  (c =? ch "Z") || (c =? ch "+") || (c =? ch "-").

(** The first of [Z], [+], [-] from [p] on; the scan looks at [p] itself
    before it compares with [p_end]. *)
Fixpoint find_tz_marker (fuel : nat) (buf : list Z) (p p_end : Z) : Z :=
  match fuel with
  | O => p
  | S f =>
      if is_tz_marker (byte buf p) then p
      else if p + 1 <? p_end then find_tz_marker f buf (p + 1) p_end
      else p + 1
  end.

(** [parse_isoformat_time]: the time of day in the [dtlen] bytes from
    [p], and the UTC offset when there is one, as seconds and
    microseconds. *)
Definition time_fields : Type := Z * Z * Z * Z * option (Z * Z).

Definition parse_isoformat_time (buf : list Z) (p dtlen : Z)
  : option time_fields :=
  let p_end := p + dtlen in
  let tzinfo_pos := find_tz_marker (S (length buf)) buf p p_end in
  match parse_hh_mm_ss_ff buf p tzinfo_pos with
  | None => None
  | Some (stopped, hmsu) =>
      if tzinfo_pos =? p_end then
        if stopped then None else Some (hmsu, None)
      else if byte buf tzinfo_pos =? ch "Z" then
        if byte buf (tzinfo_pos + 1) =? 0 then Some (hmsu, Some (0, 0))
        else None
      else
        let tzsign := if byte buf tzinfo_pos =? ch "-" then -1 else 1 in
        match parse_hh_mm_ss_ff buf (tzinfo_pos + 1) p_end with
        | None => None
        | Some (stopped, (tzhour, tzminute, tzsecond, tzus)) =>
            if stopped then None
            else Some (hmsu,
                       Some (tzsign * (tzhour * 3600 + tzminute * 60 + tzsecond),
                             tzsign * tzus))
        end
  end.

(** [repr] of a [timedelta] of [us] microseconds. *)
Definition timedelta_repr (us : Z) : string :=
  let days := us / 86400000000 in
  let seconds := (us mod 86400000000) / 1000000 in
  let micro := us mod 1000000 in
  let args :=
    (if days =? 0 then [] else ["days=" +:+ Str.of_int days]) ++
    (if seconds =? 0 then [] else ["seconds=" +:+ Str.of_int seconds]) ++
    (if micro =? 0 then [] else ["microseconds=" +:+ Str.of_int micro]) in
  "datetime.timedelta(" +:+
    Str.join ", " (match args with [] => ["0"] | _ => args end) +:+ ")".

(** [tzinfo_from_isoformat_results]: a zero offset in seconds is UTC
    whatever the microseconds; otherwise the offset must lie strictly
    between minus and plus 24 hours. *)
Definition tzinfo_from_isoformat_results (off : option (Z * Z))
  : result (option tzinfo) :=
  match off with
  | None => Returns None
  | Some (tzoffset, tzusec) =>
      if tzoffset =? 0 then Returns (Some (Timezone 0))
      else
        let us := tzoffset * 1000000 + tzusec in
        if (us <=? - 86400000000) || (86400000000 <=? us) then
          Raises (Exn ValueError
            ("offset must be a timedelta strictly between " +:+
             "-timedelta(hours=24) and timedelta(hours=24), not " +:+
             timedelta_repr us +:+ "."))
        else Returns (Some (Timezone us))
  end.

(** The constructor [datetime(year, ..., tzinfo)] with its range checks. *)
Definition new_datetime (y m d hh mm ss us : Z) (tzi : option tzinfo)
  : result datetime :=
  if (y <? MINYEAR) || (MAXYEAR <? y) then
    Raises (Exn ValueError ("year " +:+ Str.of_int y +:+ " is out of range"))
  else if (m <? 1) || (12 <? m) then
    Raises (Exn ValueError "month must be in 1..12")
  else if (d <? 1) || (days_in_month y m <? d) then
    Raises (Exn ValueError "day is out of range for month")
  else if (hh <? 0) || (23 <? hh) then
    Raises (Exn ValueError "hour must be in 0..23")
  else if (mm <? 0) || (59 <? mm) then
    Raises (Exn ValueError "minute must be in 0..59")
  else if (ss <? 0) || (59 <? ss) then
    Raises (Exn ValueError "second must be in 0..59")
  else if (us <? 0) || (999999 <? us) then
    Raises (Exn ValueError "microsecond must be in 0..999999")
  else Returns (mkdatetime y m d hh mm ss us tzi).

(** How many bytes the separator between date and time takes. *)
Definition separator_width (c : Z) : Z :=
  if Z.land c 128 =? 0 then 1
  else if Z.land c 240 =? 240 then 4
  else if Z.land c 240 =? 224 then 3
  else 2.

Definition invalid_isoformat {A} (s : string) : result A :=
  Raises (Exn ValueError ("Invalid isoformat string: " +:+ Str.repr s)).

(** [datetime.fromisoformat(date_string)] for a string argument. *)
Definition fromisoformat_str (date_string : string) : result datetime :=
  let buf := utf8 date_string in
  let len := Z.of_nat (length buf) in
  if len <? 7 then invalid_isoformat date_string
  else
    match _find_isoformat_datetime_separator buf len with
    | None => invalid_isoformat date_string
    | Some separator_location =>
        match parse_isoformat_date buf separator_location with
        | None => invalid_isoformat date_string
        | Some (y, m, d) =>
            let time :=
              if separator_location <? len then
                let p := separator_location +
                         separator_width (byte buf separator_location) in
                parse_isoformat_time buf p (len - p)
              else Some (0, 0, 0, 0, None) : option time_fields in
            match time with
            | None => invalid_isoformat date_string
            | Some (hh, mm, ss, us, off) =>
                result_bind (tzinfo_from_isoformat_results off)
                  (new_datetime y m d hh mm ss us)
            end
        end
    end.

(** [datetime.fromisoformat(v)]: the argument must be a [str]. *)
Definition fromisoformat (v : json) : result datetime :=
  match v with
  | JString s => fromisoformat_str s
  | _ => Raises (Exn TypeError "fromisoformat: argument must be str")
  end.

(** [dt.utcoffset()] in microseconds. *)
Definition utcoffset (dt : datetime) : option Z :=
  match tz dt with
  | None => None
  | Some (Timezone us) => Some us
  | Some (PytzInfo off _ _) => Some (off * 1000000)
  end.

(** [_format_offset]: [+HH:MM], with [:SS] and [.ffffff] when non-zero. *)
Definition format_offset (off : option Z) : string :=
  match off with
  | None => ""
  | Some us =>
      let sign := if us <? 0 then "-" else "+" in
      let a := Z.abs us in
      let hh := a / 3600000000 in
      let mm := (a mod 3600000000) / 60000000 in
      let ss := (a mod 60000000) / 1000000 in
      let micro := a mod 1000000 in
      sign +:+ Str.zero_padded 2 hh +:+ ":" +:+ Str.zero_padded 2 mm +:+
      (if (ss =? 0) && (micro =? 0) then ""
       else ":" +:+ Str.zero_padded 2 ss +:+
            (if micro =? 0 then "" else "." +:+ Str.zero_padded 6 micro))
  end.

(** [dt.isoformat()]: [YYYY-MM-DDTHH:MM:SS], [.ffffff] when the
    microseconds are not zero, and the UTC offset of an aware value. *)
Definition isoformat (dt : datetime) : string :=
  Str.zero_padded 4 (year dt) +:+ "-" +:+ Str.zero_padded 2 (month dt) +:+
  "-" +:+ Str.zero_padded 2 (day dt) +:+ "T" +:+
  Str.zero_padded 2 (hour dt) +:+ ":" +:+ Str.zero_padded 2 (minute dt) +:+
  ":" +:+ Str.zero_padded 2 (second dt) +:+
  (if microsecond dt =? 0 then ""
   else "." +:+ Str.zero_padded 6 (microsecond dt)) +:+
  format_offset (utcoffset dt).

(** *** Arithmetic on the time line

    [to_us dt] is the number of microseconds between 0001-01-01T00:00:00
    and the wall-clock fields of [dt]; [dt + timedelta] is computed there
    and raises [OverflowError] outside years 1 to 9999. *)

Definition MAXORDINAL : Z := 3652059.
Definition us_per_day : Z := 86400000000.

Definition to_us (dt : datetime) : Z :=
  (((ymd_to_ord (year dt) (month dt) (day dt) - 1) * 24 + hour dt) * 60
     + minute dt) * 60000000
  + second dt * 1000000 + microsecond dt.

Definition of_us (x : Z) (tzi : option tzinfo) : datetime :=
  let '(y, m, d) := ord_to_ymd (x / us_per_day + 1) in
  let r := x mod us_per_day in
  mkdatetime y m d (r / 3600000000) ((r / 60000000) mod 60)
             ((r / 1000000) mod 60) (r mod 1000000) tzi.

(** [dt + timedelta(microseconds=delta)]: the tzinfo is kept. *)
Definition add_timedelta (dt : datetime) (delta : Z) : result datetime :=
  let x := to_us dt + delta in
  if (x <? 0) || (MAXORDINAL * us_per_day <=? x)
  then Raises (Exn OverflowError "date value out of range")
  else Returns (of_us x (tz dt)).

(** [dt.replace(tzinfo=tzi)]. *)
Definition replace_tzinfo (dt : datetime) (tzi : option tzinfo) : datetime :=
  mkdatetime (year dt) (month dt) (day dt) (hour dt) (minute dt)
             (second dt) (microsecond dt) tzi.

Definition hours (n : Z) : Z := n * 3600000000.
Definition days (n : Z) : Z := n * us_per_day.
Definition seconds (n : Z) : Z := n * 1000000.

End Datetime.

(** ** [pytz]: the zone America/Chicago and [localize]

    A [DstTzInfo] holds the instants (naive, UTC) at which the zone's rules
    change and, for each, the rule in force from then on: UTC offset and DST
    offset in seconds and the abbreviation.  [pytz] reads them from the
    32-bit block of the compiled zone file, which ends in 2037, puts
    [datetime.min] first with the zone's first standard time, and rounds
    offsets to whole minutes. *)

Module Pytz.
Import Datetime.

Record ttinfo : Type := i { _utcoffset : Z; _dst : Z; _tzname : string }.

Record DstTzInfo : Type := {
  zone : string;
  _utc_transition_times : list datetime;
  _transition_info : list ttinfo
}.

Definition d (y m dd hh mm ss : Z) : datetime :=
  mkdatetime y m dd hh mm ss 0 None.

Module America_Chicago.

Definition _utc_transition_times : list datetime := [
  d 1 1 1 0 0 0; d 1901 12 13 20 45 52; d 1918 3 31 8 0 0;
  d 1918 10 27 7 0 0; d 1919 3 30 8 0 0; d 1919 10 26 7 0 0;
  d 1920 6 13 8 0 0; d 1920 10 31 7 0 0; d 1921 3 27 8 0 0;
  d 1921 10 30 7 0 0; d 1922 4 30 8 0 0; d 1922 9 24 7 0 0;
  d 1923 4 29 8 0 0; d 1923 9 30 7 0 0; d 1924 4 27 8 0 0;
  d 1924 9 28 7 0 0; d 1925 4 26 8 0 0; d 1925 9 27 7 0 0;
  d 1926 4 25 8 0 0; d 1926 9 26 7 0 0; d 1927 4 24 8 0 0;
  d 1927 9 25 7 0 0; d 1928 4 29 8 0 0; d 1928 9 30 7 0 0;
  d 1929 4 28 8 0 0; d 1929 9 29 7 0 0; d 1930 4 27 8 0 0;
  d 1930 9 28 7 0 0; d 1931 4 26 8 0 0; d 1931 9 27 7 0 0;
  d 1932 4 24 8 0 0; d 1932 9 25 7 0 0; d 1933 4 30 8 0 0;
  d 1933 9 24 7 0 0; d 1934 4 29 8 0 0; d 1934 9 30 7 0 0;
  d 1935 4 28 8 0 0; d 1935 9 29 7 0 0; d 1936 3 1 8 0 0;
  d 1936 11 15 7 0 0; d 1937 4 25 8 0 0; d 1937 9 26 7 0 0;
  d 1938 4 24 8 0 0; d 1938 9 25 7 0 0; d 1939 4 30 8 0 0;
  d 1939 9 24 7 0 0; d 1940 4 28 8 0 0; d 1940 9 29 7 0 0;
  d 1941 4 27 8 0 0; d 1941 9 28 7 0 0; d 1942 2 9 8 0 0;
  d 1945 8 14 23 0 0; d 1945 9 30 7 0 0; d 1946 4 28 8 0 0;
  d 1946 9 29 7 0 0; d 1947 4 27 8 0 0; d 1947 9 28 7 0 0;
  d 1948 4 25 8 0 0; d 1948 9 26 7 0 0; d 1949 4 24 8 0 0;
  d 1949 9 25 7 0 0; d 1950 4 30 8 0 0; d 1950 9 24 7 0 0;
  d 1951 4 29 8 0 0; d 1951 9 30 7 0 0; d 1952 4 27 8 0 0;
  d 1952 9 28 7 0 0; d 1953 4 26 8 0 0; d 1953 9 27 7 0 0;
  d 1954 4 25 8 0 0; d 1954 9 26 7 0 0; d 1955 4 24 8 0 0;
  d 1955 10 30 7 0 0; d 1956 4 29 8 0 0; d 1956 10 28 7 0 0;
  d 1957 4 28 8 0 0; d 1957 10 27 7 0 0; d 1958 4 27 8 0 0;
  d 1958 10 26 7 0 0; d 1959 4 26 8 0 0; d 1959 10 25 7 0 0;
  d 1960 4 24 8 0 0; d 1960 10 30 7 0 0; d 1961 4 30 8 0 0;
  d 1961 10 29 7 0 0; d 1962 4 29 8 0 0; d 1962 10 28 7 0 0;
  d 1963 4 28 8 0 0; d 1963 10 27 7 0 0; d 1964 4 26 8 0 0;
  d 1964 10 25 7 0 0; d 1965 4 25 8 0 0; d 1965 10 31 7 0 0;
  d 1966 4 24 8 0 0; d 1966 10 30 7 0 0; d 1967 4 30 8 0 0;
  d 1967 10 29 7 0 0; d 1968 4 28 8 0 0; d 1968 10 27 7 0 0;
  d 1969 4 27 8 0 0; d 1969 10 26 7 0 0; d 1970 4 26 8 0 0;
  d 1970 10 25 7 0 0; d 1971 4 25 8 0 0; d 1971 10 31 7 0 0;
  d 1972 4 30 8 0 0; d 1972 10 29 7 0 0; d 1973 4 29 8 0 0;
  d 1973 10 28 7 0 0; d 1974 1 6 8 0 0; d 1974 10 27 7 0 0;
  d 1975 2 23 8 0 0; d 1975 10 26 7 0 0; d 1976 4 25 8 0 0;
  d 1976 10 31 7 0 0; d 1977 4 24 8 0 0; d 1977 10 30 7 0 0;
  d 1978 4 30 8 0 0; d 1978 10 29 7 0 0; d 1979 4 29 8 0 0;
  d 1979 10 28 7 0 0; d 1980 4 27 8 0 0; d 1980 10 26 7 0 0;
  d 1981 4 26 8 0 0; d 1981 10 25 7 0 0; d 1982 4 25 8 0 0;
  d 1982 10 31 7 0 0; d 1983 4 24 8 0 0; d 1983 10 30 7 0 0;
  d 1984 4 29 8 0 0; d 1984 10 28 7 0 0; d 1985 4 28 8 0 0;
  d 1985 10 27 7 0 0; d 1986 4 27 8 0 0; d 1986 10 26 7 0 0;
  d 1987 4 5 8 0 0; d 1987 10 25 7 0 0; d 1988 4 3 8 0 0;
  d 1988 10 30 7 0 0; d 1989 4 2 8 0 0; d 1989 10 29 7 0 0;
  d 1990 4 1 8 0 0; d 1990 10 28 7 0 0; d 1991 4 7 8 0 0;
  d 1991 10 27 7 0 0; d 1992 4 5 8 0 0; d 1992 10 25 7 0 0;
  d 1993 4 4 8 0 0; d 1993 10 31 7 0 0; d 1994 4 3 8 0 0;
  d 1994 10 30 7 0 0; d 1995 4 2 8 0 0; d 1995 10 29 7 0 0;
  d 1996 4 7 8 0 0; d 1996 10 27 7 0 0; d 1997 4 6 8 0 0;
  d 1997 10 26 7 0 0; d 1998 4 5 8 0 0; d 1998 10 25 7 0 0;
  d 1999 4 4 8 0 0; d 1999 10 31 7 0 0; d 2000 4 2 8 0 0;
  d 2000 10 29 7 0 0; d 2001 4 1 8 0 0; d 2001 10 28 7 0 0;
  d 2002 4 7 8 0 0; d 2002 10 27 7 0 0; d 2003 4 6 8 0 0;
  d 2003 10 26 7 0 0; d 2004 4 4 8 0 0; d 2004 10 31 7 0 0;
  d 2005 4 3 8 0 0; d 2005 10 30 7 0 0; d 2006 4 2 8 0 0;
  d 2006 10 29 7 0 0; d 2007 3 11 8 0 0; d 2007 11 4 7 0 0;
  d 2008 3 9 8 0 0; d 2008 11 2 7 0 0; d 2009 3 8 8 0 0;
  d 2009 11 1 7 0 0; d 2010 3 14 8 0 0; d 2010 11 7 7 0 0;
  d 2011 3 13 8 0 0; d 2011 11 6 7 0 0; d 2012 3 11 8 0 0;
  d 2012 11 4 7 0 0; d 2013 3 10 8 0 0; d 2013 11 3 7 0 0;
  d 2014 3 9 8 0 0; d 2014 11 2 7 0 0; d 2015 3 8 8 0 0;
  d 2015 11 1 7 0 0; d 2016 3 13 8 0 0; d 2016 11 6 7 0 0;
  d 2017 3 12 8 0 0; d 2017 11 5 7 0 0; d 2018 3 11 8 0 0;
  d 2018 11 4 7 0 0; d 2019 3 10 8 0 0; d 2019 11 3 7 0 0;
  d 2020 3 8 8 0 0; d 2020 11 1 7 0 0; d 2021 3 14 8 0 0;
  d 2021 11 7 7 0 0; d 2022 3 13 8 0 0; d 2022 11 6 7 0 0;
  d 2023 3 12 8 0 0; d 2023 11 5 7 0 0; d 2024 3 10 8 0 0;
  d 2024 11 3 7 0 0; d 2025 3 9 8 0 0; d 2025 11 2 7 0 0;
  d 2026 3 8 8 0 0; d 2026 11 1 7 0 0; d 2027 3 14 8 0 0;
  d 2027 11 7 7 0 0; d 2028 3 12 8 0 0; d 2028 11 5 7 0 0;
  d 2029 3 11 8 0 0; d 2029 11 4 7 0 0; d 2030 3 10 8 0 0;
  d 2030 11 3 7 0 0; d 2031 3 9 8 0 0; d 2031 11 2 7 0 0;
  d 2032 3 14 8 0 0; d 2032 11 7 7 0 0; d 2033 3 13 8 0 0;
  d 2033 11 6 7 0 0; d 2034 3 12 8 0 0; d 2034 11 5 7 0 0;
  d 2035 3 11 8 0 0; d 2035 11 4 7 0 0; d 2036 3 9 8 0 0;
  d 2036 11 2 7 0 0; d 2037 3 8 8 0 0; d 2037 11 1 7 0 0
].

Definition _transition_info : list ttinfo := [
  i (-21060) 0 "LMT"; i (-21600) 0 "CST"; i (-18000) 3600 "CDT";
  i (-21600) 0 "CST"; i (-18000) 3600 "CDT"; i (-21600) 0 "CST";
  i (-18000) 3600 "CDT"; i (-21600) 0 "CST"; i (-18000) 3600 "CDT";
  i (-21600) 0 "CST"; i (-18000) 3600 "CDT"; i (-21600) 0 "CST";
  i (-18000) 3600 "CDT"; i (-21600) 0 "CST"; i (-18000) 3600 "CDT";
  i (-21600) 0 "CST"; i (-18000) 3600 "CDT"; i (-21600) 0 "CST";
  i (-18000) 3600 "CDT"; i (-21600) 0 "CST"; i (-18000) 3600 "CDT";
  i (-21600) 0 "CST"; i (-18000) 3600 "CDT"; i (-21600) 0 "CST";
  i (-18000) 3600 "CDT"; i (-21600) 0 "CST"; i (-18000) 3600 "CDT";
  i (-21600) 0 "CST"; i (-18000) 3600 "CDT"; i (-21600) 0 "CST";
  i (-18000) 3600 "CDT"; i (-21600) 0 "CST"; i (-18000) 3600 "CDT";
  i (-21600) 0 "CST"; i (-18000) 3600 "CDT"; i (-21600) 0 "CST";
  i (-18000) 3600 "CDT"; i (-21600) 0 "CST"; i (-18000) 0 "EST";
  i (-21600) 0 "CST"; i (-18000) 3600 "CDT"; i (-21600) 0 "CST";
  i (-18000) 3600 "CDT"; i (-21600) 0 "CST"; i (-18000) 3600 "CDT";
  i (-21600) 0 "CST"; i (-18000) 3600 "CDT"; i (-21600) 0 "CST";
  i (-18000) 3600 "CDT"; i (-21600) 0 "CST"; i (-18000) 3600 "CWT";
  i (-18000) 3600 "CPT"; i (-21600) 0 "CST"; i (-18000) 3600 "CDT";
  i (-21600) 0 "CST"; i (-18000) 3600 "CDT"; i (-21600) 0 "CST";
  i (-18000) 3600 "CDT"; i (-21600) 0 "CST"; i (-18000) 3600 "CDT";
  i (-21600) 0 "CST"; i (-18000) 3600 "CDT"; i (-21600) 0 "CST";
  i (-18000) 3600 "CDT"; i (-21600) 0 "CST"; i (-18000) 3600 "CDT";
  i (-21600) 0 "CST"; i (-18000) 3600 "CDT"; i (-21600) 0 "CST";
  i (-18000) 3600 "CDT"; i (-21600) 0 "CST"; i (-18000) 3600 "CDT";
  i (-21600) 0 "CST"; i (-18000) 3600 "CDT"; i (-21600) 0 "CST";
  i (-18000) 3600 "CDT"; i (-21600) 0 "CST"; i (-18000) 3600 "CDT";
  i (-21600) 0 "CST"; i (-18000) 3600 "CDT"; i (-21600) 0 "CST";
  i (-18000) 3600 "CDT"; i (-21600) 0 "CST"; i (-18000) 3600 "CDT";
  i (-21600) 0 "CST"; i (-18000) 3600 "CDT"; i (-21600) 0 "CST";
  i (-18000) 3600 "CDT"; i (-21600) 0 "CST"; i (-18000) 3600 "CDT";
  i (-21600) 0 "CST"; i (-18000) 3600 "CDT"; i (-21600) 0 "CST";
  i (-18000) 3600 "CDT"; i (-21600) 0 "CST"; i (-18000) 3600 "CDT";
  i (-21600) 0 "CST"; i (-18000) 3600 "CDT"; i (-21600) 0 "CST";
  i (-18000) 3600 "CDT"; i (-21600) 0 "CST"; i (-18000) 3600 "CDT";
  i (-21600) 0 "CST"; i (-18000) 3600 "CDT"; i (-21600) 0 "CST";
  i (-18000) 3600 "CDT"; i (-21600) 0 "CST"; i (-18000) 3600 "CDT";
  i (-21600) 0 "CST"; i (-18000) 3600 "CDT"; i (-21600) 0 "CST";
  i (-18000) 3600 "CDT"; i (-21600) 0 "CST"; i (-18000) 3600 "CDT";
  i (-21600) 0 "CST"; i (-18000) 3600 "CDT"; i (-21600) 0 "CST";
  i (-18000) 3600 "CDT"; i (-21600) 0 "CST"; i (-18000) 3600 "CDT";
  i (-21600) 0 "CST"; i (-18000) 3600 "CDT"; i (-21600) 0 "CST";
  i (-18000) 3600 "CDT"; i (-21600) 0 "CST"; i (-18000) 3600 "CDT";
  i (-21600) 0 "CST"; i (-18000) 3600 "CDT"; i (-21600) 0 "CST";
  i (-18000) 3600 "CDT"; i (-21600) 0 "CST"; i (-18000) 3600 "CDT";
  i (-21600) 0 "CST"; i (-18000) 3600 "CDT"; i (-21600) 0 "CST";
  i (-18000) 3600 "CDT"; i (-21600) 0 "CST"; i (-18000) 3600 "CDT";
  i (-21600) 0 "CST"; i (-18000) 3600 "CDT"; i (-21600) 0 "CST";
  i (-18000) 3600 "CDT"; i (-21600) 0 "CST"; i (-18000) 3600 "CDT";
  i (-21600) 0 "CST"; i (-18000) 3600 "CDT"; i (-21600) 0 "CST";
  i (-18000) 3600 "CDT"; i (-21600) 0 "CST"; i (-18000) 3600 "CDT";
  i (-21600) 0 "CST"; i (-18000) 3600 "CDT"; i (-21600) 0 "CST";
  i (-18000) 3600 "CDT"; i (-21600) 0 "CST"; i (-18000) 3600 "CDT";
  i (-21600) 0 "CST"; i (-18000) 3600 "CDT"; i (-21600) 0 "CST";
  i (-18000) 3600 "CDT"; i (-21600) 0 "CST"; i (-18000) 3600 "CDT";
  i (-21600) 0 "CST"; i (-18000) 3600 "CDT"; i (-21600) 0 "CST";
  i (-18000) 3600 "CDT"; i (-21600) 0 "CST"; i (-18000) 3600 "CDT";
  i (-21600) 0 "CST"; i (-18000) 3600 "CDT"; i (-21600) 0 "CST";
  i (-18000) 3600 "CDT"; i (-21600) 0 "CST"; i (-18000) 3600 "CDT";
  i (-21600) 0 "CST"; i (-18000) 3600 "CDT"; i (-21600) 0 "CST";
  i (-18000) 3600 "CDT"; i (-21600) 0 "CST"; i (-18000) 3600 "CDT";
  i (-21600) 0 "CST"; i (-18000) 3600 "CDT"; i (-21600) 0 "CST";
  i (-18000) 3600 "CDT"; i (-21600) 0 "CST"; i (-18000) 3600 "CDT";
  i (-21600) 0 "CST"; i (-18000) 3600 "CDT"; i (-21600) 0 "CST";
  i (-18000) 3600 "CDT"; i (-21600) 0 "CST"; i (-18000) 3600 "CDT";
  i (-21600) 0 "CST"; i (-18000) 3600 "CDT"; i (-21600) 0 "CST";
  i (-18000) 3600 "CDT"; i (-21600) 0 "CST"; i (-18000) 3600 "CDT";
  i (-21600) 0 "CST"; i (-18000) 3600 "CDT"; i (-21600) 0 "CST";
  i (-18000) 3600 "CDT"; i (-21600) 0 "CST"; i (-18000) 3600 "CDT";
  i (-21600) 0 "CST"; i (-18000) 3600 "CDT"; i (-21600) 0 "CST";
  i (-18000) 3600 "CDT"; i (-21600) 0 "CST"; i (-18000) 3600 "CDT";
  i (-21600) 0 "CST"; i (-18000) 3600 "CDT"; i (-21600) 0 "CST";
  i (-18000) 3600 "CDT"; i (-21600) 0 "CST"; i (-18000) 3600 "CDT";
  i (-21600) 0 "CST"; i (-18000) 3600 "CDT"; i (-21600) 0 "CST";
  i (-18000) 3600 "CDT"; i (-21600) 0 "CST"; i (-18000) 3600 "CDT";
  i (-21600) 0 "CST"; i (-18000) 3600 "CDT"; i (-21600) 0 "CST";
  i (-18000) 3600 "CDT"; i (-21600) 0 "CST"; i (-18000) 3600 "CDT";
  i (-21600) 0 "CST"; i (-18000) 3600 "CDT"; i (-21600) 0 "CST";
  i (-18000) 3600 "CDT"; i (-21600) 0 "CST"; i (-18000) 3600 "CDT";
  i (-21600) 0 "CST"; i (-18000) 3600 "CDT"; i (-21600) 0 "CST"
].

End America_Chicago.

Definition Chicago : DstTzInfo :=
  {| zone := "America/Chicago";
     _utc_transition_times := America_Chicago._utc_transition_times;
     _transition_info := America_Chicago._transition_info |}.

(** The tzinfo object of one period, [self._tzinfos[inf]]. *)
Definition tzinfo_of (inf : ttinfo) : tzinfo :=
  PytzInfo (_utcoffset inf) (_dst inf) (_tzname inf).

Definition lt (a b : datetime) : bool := to_us a <? to_us b.

(** [bisect.bisect_right(a, x)] by bisection. *)
Fixpoint bisect_loop (fuel : nat) (a : list datetime) (x : datetime)
    (lo hi : Z) : Z :=
  match fuel with
  | O => lo
  | S f =>
      if lo <? hi then
        let mid := (lo + hi) / 2 in
        match a !! Z.to_nat mid with
        | Some am =>
            if lt x am then bisect_loop f a x lo mid
            else bisect_loop f a x (mid + 1) hi
        | None => lo
        end
      else lo
  end.

Definition bisect_right (a : list datetime) (x : datetime) : Z :=
  bisect_loop (S (length a)) a x 0 (Z.of_nat (length a)).

(** The rule in force at the naive instant [x]:
    [_transition_info[max(0, bisect_right(_utc_transition_times, x) - 1)]]. *)
Definition info_at (self : DstTzInfo) (x : datetime) : ttinfo :=
  let idx := Z.max 0 (bisect_right (_utc_transition_times self) x - 1) in
  nth (Z.to_nat idx) (_transition_info self) (i 0 0 "").

(** [self.fromutc(dt)] for a naive [dt] read as UTC. *)
Definition fromutc (self : DstTzInfo) (dt : datetime) : result datetime :=
  let inf := info_at self dt in
  result_bind (add_timedelta dt (seconds (_utcoffset inf)))
    (fun r => Returns (replace_tzinfo r (Some (tzinfo_of inf)))).

(** [self.normalize(dt)]: through UTC and back. *)
Definition normalize (self : DstTzInfo) (dt : datetime) : result datetime :=
  match tz dt with
  | None => Raises (Exn ValueError "Naive time - no tzinfo set")
  | Some (Timezone _) =>
      Raises (Exn AttributeError
        "'datetime.timezone' object has no attribute '_utcoffset'")
  | Some (PytzInfo off _ _) =>
      result_bind (add_timedelta (replace_tzinfo dt None) (- seconds off))
        (fromutc self)
  end.

Definition dst_of (dt : datetime) : Z :=
  match tz dt with Some (PytzInfo _ dst _) => dst | _ => 0 end.

(** The UTC instant of an aware value,
    [dt.replace(tzinfo=None) - dt.tzinfo._utcoffset]. *)
Definition utc_us (dt : datetime) : Z :=
  to_us dt - default 0 (utcoffset dt).

(** One round of the loop over [timedelta(days=-1)] and
    [timedelta(days=1)]: the rule in force a day away, kept when the
    wall clock of [dt] exists under it.  A probe that falls outside the
    years 1 to 9999 is left out, so that the first and the last day of the
    range are localized from the one probe that exists. *)
Definition candidate (self : DstTzInfo) (dt : datetime) (delta : Z)
  : result (option datetime) :=
  match add_timedelta dt delta with
  | Raises _ => Returns None
  | Returns loc_dt =>
      let tzinfo := tzinfo_of (info_at self loc_dt) in
      result_bind (normalize self (replace_tzinfo dt (Some tzinfo))) (fun loc_dt =>
      Returns (if to_us loc_dt =? to_us dt then Some loc_dt else None))
  end.

(** [possible_loc_dt.add(x)]: aware values are equal when they are the
    same instant. *)
Definition set_add (x : option datetime) (s : list datetime) : list datetime :=
  match x with
  | None => s
  | Some x => if existsb (fun y => utc_us y =? utc_us x) s then s else s ++ [x]
  end.

(** [dates[max(dates)]]: the latest by UTC. *)
Definition latest (l : list datetime) (first : datetime) : datetime :=
  fold_left (fun best x => if utc_us best <? utc_us x then x else best) l first.

(** [self.localize(dt)] with the default [is_dst=False].  [depth] bounds
    the recursion like the interpreter's recursion limit does. *)
Fixpoint localize_rec (depth : nat) (self : DstTzInfo) (dt : datetime)
  : result datetime :=
  match depth with
  | O => Raises (Exn RecursionError "maximum recursion depth exceeded")
  | S depth' =>
      match tz dt with
      | Some _ =>
          Raises (Exn ValueError "Not naive datetime (tzinfo is already set)")
      | None =>
          result_bind (candidate self dt (days (-1))) (fun c1 =>
          result_bind (candidate self dt (days 1)) (fun c2 =>
          let possible_loc_dt := set_add c2 (set_add c1 []) in
          match possible_loc_dt with
          | [x] => Returns x
          | [] =>
              (* a wall-clock time skipped at the start of DST *)
              result_bind (add_timedelta dt (- hours 6)) (fun earlier =>
              result_bind (localize_rec depth' self earlier) (fun r =>
              add_timedelta r (hours 6)))
          | x :: rest =>
              (* a wall-clock time repeated at the end of DST *)
              match filter (fun p => dst_of p =? 0) possible_loc_dt with
              | [y] => Returns y
              | [] => Returns (latest rest x)
              | y :: more => Returns (latest more y)
              end
          end))
      end
  end.

Definition recursion_limit : nat := 1000.

Definition localize (self : DstTzInfo) (dt : datetime) : result datetime :=
  localize_rec recursion_limit self dt.

End Pytz.

(** ** The HTTP client ([requests]) and the handler monad *)

(** What [requests.post] returns.  [text] is the decoded body, [content]
    the raw one, and [json_] the outcome of [response.json()], which raises
    when the body is not JSON. *)
Record Response : Type := {
  status_code : Z;
  text : string;
  content : string;
  json_ : result json
}.

(** One outbound call [requests.post(url, json=payload, headers=headers)]. *)
Record PostCall : Type := {
  url : string;
  payload : json;
  headers : gmap string string
}.

(** The outside world: what a call is answered with, given the calls made
    before it.  A call that fails on the way (connection error, timeout)
    raises. *)
Definition network : Type := list PostCall -> PostCall -> result Response.

(** A handler reads the network, extends the list of calls made and returns
    or raises. *)
Definition M (A : Type) : Type :=
  network -> list PostCall -> result A * list PostCall.

#[export] Instance M_ret : MRet M := fun A a _ calls => (Returns a, calls).

#[export] Instance M_bind : MBind M := fun A B k m net calls =>
  match m net calls with
  | (Returns a, calls') => k a net calls'
  | (Raises e, calls') => (Raises e, calls')
  end.

(** An expression that may raise, evaluated inside a handler. *)
Definition lift {A} (r : result A) : M A := fun _ calls => (r, calls).

(** [try: body except Exception as e: handler(e)]. *)
Definition try_except {A} (body : M A) (handler : exn -> M A) : M A :=
  fun net calls =>
    match body net calls with
    | (Returns a, calls') => (Returns a, calls')
    | (Raises e, calls') => handler e net calls'
    end.

Definition requests_post (u : string) (j : json) (h : gmap string string)
  : M Response :=
  fun net calls =>
    let call := {| url := u; payload := j; headers := h |} in
    (net calls call, calls ++ [call]).

(** ** Flask: requests and replies *)

(** The inbound request as the handlers see it: the outcome of
    [request.get_json()], which is the decoded body ([JNull] for the JSON
    literal [null]) or an exception when Flask cannot decode one. *)
Record Request : Type := { get_json : result json }.

Inductive Body : Type :=
| JsonBody (j : json)
| FileBody (data : string) (mimetype : string) (as_attachment : bool)
           (download_name : string)
| NoBody.

Record Reply : Type := { status : Z; body : Body }.

(** [jsonify(d), code]; a bare [jsonify(d)] is a 200. *)
Definition jsonify (kvs : list (string * json)) (code : Z) : Reply :=
  {| status := code; body := JsonBody (Py.dict kvs) |}.

Definition send_file (data mimetype : string) (as_attachment : bool)
    (download_name : string) : Reply :=
  {| status := 200; body := FileBody data mimetype as_attachment download_name |}.

(** The value of a key of a JSON reply. *)
Definition reply_field (r : Reply) (k : string) : option json :=
  match body r with
  | JsonBody (JObject m) => m !! k
  | _ => None
  end.

(** ** Configuration: the environment variables read at start-up *)

Record Config : Type := {
  ELEVENLABS_API_KEY : option string;
  ELEVENLABS_VOICE_ID : option string;
  GHL_API_KEY : option string;
  GHL_LOCATION_ID : option string;
  GHL_CALENDAR_ID : option string
}.

(** An environment variable inside an f-string. *)
Definition env_str (v : option string) : string := default "None" v.

(** An environment variable as a JSON value of a payload. *)
Definition env_json (v : option string) : json :=
  match v with Some s => JString s | None => JNull end.

(** ** The handlers *)

(** [GET /health]. *)
Definition health_check : Reply :=
  jsonify [("status", JString "healthy");
           ("service", JString "VAPPI Voice Bot Backend")] 200.

Definition elevenlabs_url (cfg : Config) : string :=
  "https://api.elevenlabs.io/v1/text-to-speech/" +:+
  env_str (ELEVENLABS_VOICE_ID cfg).

(** [POST /voice].  Logging is left out, except that the log line of the
    request evaluates [text[:50]]; [text_value] is the handler's local
    [text]. *)
Definition generate_voice (cfg : Config) (request : Request) : M Reply :=
  try_except
    (data ← lift (get_json request);
     missing ← lift (if negb (Py.truthy data) then Returns true
                     else result_bind (Py.contains "text" data)
                            (fun b => Returns (negb b)));
     if (missing : bool) then
       mret (jsonify [("error", JString "Missing 'text' field")] 400)
     else
       text_value ← lift (Py.getitem data "text");
       _ ← lift (Py.slice_to text_value 50);
       if negb (Py.env_truthy (ELEVENLABS_API_KEY cfg)) then
         mret (jsonify [("error", JString "ElevenLabs API key not configured")] 500)
       else if negb (Py.env_truthy (ELEVENLABS_VOICE_ID cfg)) then
         mret (jsonify [("error", JString "ElevenLabs voice ID not configured")] 500)
       else
         let url := elevenlabs_url cfg in
         let headers : gmap string string :=
           <["xi-api-key" := env_str (ELEVENLABS_API_KEY cfg)]>
           (<["Content-Type" := "application/json"]>
           (<["Accept" := "audio/mpeg"]> ∅)) in
         let payload :=
           Py.dict [("text", text_value);
                    ("model_id", JString "eleven_monolingual_v1");
                    ("voice_settings",
                     Py.dict [("stability", JFloat (S754_finite false 1 (-1)));
                              ("similarity_boost",
                               JFloat (S754_finite false 1 (-1)))])] in
         response ← requests_post url payload headers;
         if status_code response =? 200 then
           mret (send_file (content response) "audio/mpeg" true "voice.mp3")
         else
           mret (jsonify [("error", JString "Failed to generate voice");
                          ("details", JString (text response))]
                         (status_code response)))
    (fun e => mret (jsonify [("error", JString (exn_msg e))] 500)).

Definition required_fields : list string :=
  ["name"; "phone"; "email"; "selectedSlot"].

(** The validation loop: the first required field that is [not in data],
    if any; the membership test itself raises on a body that is not a
    container. *)
Fixpoint first_missing (fields : list string) (data : json)
  : result (option string) :=
  match fields with
  | [] => Returns None
  | field :: rest =>
      match Py.contains field data with
      | Raises e => Raises e
      | Returns true => first_missing rest data
      | Returns false => Returns (Some field)
      end
  end.

(** [pytz_timezone("America/Chicago")]. *)
Definition central : Pytz.DstTzInfo := Pytz.Chicago.

(** The body of the inner [try]:
    [central.localize(datetime.fromisoformat(data['selectedSlot']))]. *)
Definition parse_selected_slot (data : json) : result Datetime.datetime :=
  result_bind (Py.getitem data "selectedSlot") (fun slot =>
  result_bind (Datetime.fromisoformat slot) (fun naive =>
  Pytz.localize central naive)).

Definition contact_url : string := "https://rest.gohighlevel.com/v1/contacts/".
Definition calendar_url : string :=
  "https://rest.gohighlevel.com/v1/appointments/".

Definition contact_headers (cfg : Config) : gmap string string :=
  <["Content-Type" := "application/json"]>
  (<["Authorization" := "Bearer " +:+ env_str (GHL_API_KEY cfg)]> ∅).

(** [data['name'].split(' ')[0]]. *)
Definition firstName (name : string) : string :=
  hd "" (Str.split " " name).

(** [" ".join(data['name'].split(' ')[1:])
     if len(data['name'].split(' ')) > 1 else ""]. *)
Definition lastName (name : string) : string :=
  if (1 <? length (Str.split " " name))%nat
  then Str.join " " (tail (Str.split " " name))
  else "".

Definition contact_payload (cfg : Config) (email phone : json) (name : string)
  : json :=
  Py.dict [("email", email);
           ("phone", phone);
           ("firstName", JString (firstName name));
           ("lastName", JString (lastName name));
           ("locationId", env_json (GHL_LOCATION_ID cfg))].

(** [contact_data.get('id') or contact_data.get('contact', {}).get('id')]:
    the second operand is evaluated only when the first is falsy. *)
Definition extract_contact_id (contact_data : json) : result json :=
  result_bind (Py.get contact_data "id") (fun top =>
  if Py.truthy top then Returns top
  else result_bind (Py.get_default contact_data "contact" (JObject ∅))
         (fun contact => Py.get contact "id")).

Definition calendar_payload (cfg : Config) (contact_id : json)
    (appointment_time : Datetime.datetime) (name : string) : json :=
  Py.dict [("calendarId", env_json (GHL_CALENDAR_ID cfg));
           ("contactId", contact_id);
           ("startTime", JString (Datetime.isoformat appointment_time));
           ("title", JString ("Appointment with " +:+ name));
           ("description", JString "Appointment booked via VAPPI Voice Bot");
           ("locationId", env_json (GHL_LOCATION_ID cfg))].

Definition success_status (code : Z) : bool := (code =? 200) || (code =? 201).

(** [POST /book].  Logging is left out, except that the log line of the
    request evaluates [data['name']].  Building the contact payload calls
    [data['name'].split(' ')], which only a string has; from there on the
    name is known to be a string. *)
Definition book_appointment (cfg : Config) (request : Request) : M Reply :=
  try_except
    (data ← lift (get_json request);
     missing ← lift (first_missing required_fields data);
     match missing with
     | Some field =>
         mret (jsonify [("error", JString ("Missing '" +:+ field +:+ "' field"))]
                       400)
     | None =>
         _ ← lift (Py.getitem data "name");
         match parse_selected_slot data with
         | Raises e =>
             mret (jsonify [("error", JString ("Invalid datetime format: "
                                                 +:+ exn_msg e))] 400)
         | Returns appointment_time =>
             if negb (Py.env_truthy (GHL_API_KEY cfg)
                      && Py.env_truthy (GHL_LOCATION_ID cfg)
                      && Py.env_truthy (GHL_CALENDAR_ID cfg)) then
               mret (jsonify [("error",
                               JString "GoHighLevel API configuration incomplete")]
                             500)
             else
               email ← lift (Py.getitem data "email");
               phone ← lift (Py.getitem data "phone");
               name_value ← lift (Py.getitem data "name");
               match name_value with
               | JString name =>
                   contact_response ←
                     requests_post contact_url
                       (contact_payload cfg email phone name)
                       (contact_headers cfg);
                   if negb (success_status (status_code contact_response)) then
                     mret (jsonify [("error", JString "Failed to create contact");
                                    ("details",
                                     JString (text contact_response))] 500)
                   else
                     contact_data ← lift (json_ contact_response);
                     contact_id ← lift (extract_contact_id contact_data);
                     if negb (Py.truthy contact_id) then
                       mret (jsonify [("error",
                                       JString "Failed to get contact ID")] 500)
                     else
                       calendar_response ←
                         requests_post calendar_url
                           (calendar_payload cfg contact_id appointment_time name)
                           (contact_headers cfg);
                       if success_status (status_code calendar_response) then
                         appointment ← lift (json_ calendar_response);
                         mret (jsonify
                                 [("success", JBool true);
                                  ("message",
                                   JString "Appointment booked successfully");
                                  ("scheduled_time",
                                   JString (Datetime.isoformat appointment_time));
                                  ("appointment", appointment)] 200)
                       else
                         mret (jsonify
                                 [("error", JString "Failed to book appointment");
                                  ("details",
                                   JString (text calendar_response))] 500)
               | _ => lift (Py.no_attribute name_value "split")
               end
         end
     end)
    (fun e => mret (jsonify [("error", JString (exn_msg e))] 500)).

(** The statuses that Werkzeug serves without a body: 1xx, 204 and 304. *)
Definition has_no_body (code : Z) : bool :=
  ((100 <=? code) && (code <? 200)) || (code =? 204) || (code =? 304).

(** What goes on the wire for a reply that a handler returned. *)
Definition serve (r : Reply) : Reply :=
  if has_no_body (status r) then {| status := status r; body := NoBody |}
  else r.

(** Running a handler from an empty list of calls: the reply as served and
    the outbound calls made, in order.  The outermost [except] of both
    handlers leaves no exception; should one escape, Flask answers with its
    own 500 page. *)
Definition run (h : M Reply) (net : network) : Reply * list PostCall :=
  match h net [] with
  | (Returns r, calls) => (serve r, calls)
  | (Raises e, calls) =>
      ({| status := 500; body := JsonBody JNull |}, calls)
  end.

(** ** The paths through the booking workflow

    [book_path cfg request net reply calls]: the handler, run on [request]
    against [net], answers [reply] after the outbound [calls].  One
    constructor per way out of [book_appointment], in the order of the
    source. *)

(** The reply of the outermost [except]. *)
Definition error_reply (e : exn) : Reply :=
  jsonify [("error", JString (exn_msg e))] 500.

(** [all([GHL_API_KEY, GHL_LOCATION_ID, GHL_CALENDAR_ID])]. *)
Definition config_complete (cfg : Config) : bool :=
  Py.env_truthy (GHL_API_KEY cfg) && Py.env_truthy (GHL_LOCATION_ID cfg)
  && Py.env_truthy (GHL_CALENDAR_ID cfg).

(** What building the contact payload reads from the body: [data['email']],
    [data['phone']] and [data['name']], which must have [split]. *)
Definition payload_inputs (data : json) : result (json * json * string) :=
  result_bind (Py.getitem data "email") (fun email =>
  result_bind (Py.getitem data "phone") (fun phone =>
  result_bind (Py.getitem data "name") (fun name_value =>
  match name_value with
  | JString name => Returns (email, phone, name)
  | _ => Py.no_attribute name_value "split"
  end))).

(** The two outbound calls. *)
Definition contact_call (cfg : Config) (email phone : json) (name : string) : PostCall :=
  {| url := contact_url; payload := contact_payload cfg email phone name;
     headers := contact_headers cfg |}.

Definition calendar_call (cfg : Config) (contact_id : json)
    (appointment_time : Datetime.datetime) (name : string) : PostCall :=
  {| url := calendar_url;
     payload := calendar_payload cfg contact_id appointment_time name;
     headers := contact_headers cfg |}.

Section Paths.
Variables (cfg : Config) (request : Request) (net : network).

Record reaches_contact (data : json) (t : Datetime.datetime)
    (email phone : json) (name : string) : Prop := {
  rc_body : get_json request = Returns data;
  rc_valid : first_missing required_fields data = Returns None;
  rc_time : parse_selected_slot data = Returns t;
  rc_config : config_complete cfg = true;
  rc_inputs : payload_inputs data = Returns (email, phone, name)
}.

Record reaches_calendar (email phone : json) (name : string) (id : json) : Prop := {
  rk_resp : exists resp body, net [] (contact_call cfg email phone name) = Returns resp
      /\ success_status (status_code resp) = true
      /\ json_ resp = Returns body
      /\ extract_contact_id body = Returns id;
  rk_truthy : Py.truthy id = true
}.

Inductive book_path : Reply -> list PostCall -> Prop :=
| path_body_raises e :
    get_json request = Raises e -> book_path (error_reply e) []
| path_validation_raises data e :
    get_json request = Returns data ->
    first_missing required_fields data = Raises e ->
    book_path (error_reply e) []
| path_missing_field data field :
    get_json request = Returns data ->
    first_missing required_fields data = Returns (Some field) ->
    book_path (jsonify [("error", JString ("Missing '" +:+ field +:+ "' field"))] 400) []
| path_name_raises data e :
    get_json request = Returns data ->
    first_missing required_fields data = Returns None ->
    Py.getitem data "name" = Raises e ->
    book_path (error_reply e) []
| path_invalid_time data name_value e :
    get_json request = Returns data ->
    first_missing required_fields data = Returns None ->
    Py.getitem data "name" = Returns name_value ->
    parse_selected_slot data = Raises e ->
    book_path (jsonify [("error", JString ("Invalid datetime format: " +:+ exn_msg e))] 400) []
| path_config_incomplete data name_value t :
    get_json request = Returns data ->
    first_missing required_fields data = Returns None ->
    Py.getitem data "name" = Returns name_value ->
    parse_selected_slot data = Returns t ->
    config_complete cfg = false ->
    book_path (jsonify [("error", JString "GoHighLevel API configuration incomplete")] 500) []
| path_inputs_raise data name_value t e :
    get_json request = Returns data ->
    first_missing required_fields data = Returns None ->
    Py.getitem data "name" = Returns name_value ->
    parse_selected_slot data = Returns t ->
    config_complete cfg = true ->
    payload_inputs data = Raises e ->
    book_path (error_reply e) []
| path_contact_call_raises data t email phone name e :
    reaches_contact data t email phone name ->
    net [] (contact_call cfg email phone name) = Raises e ->
    book_path (error_reply e) [contact_call cfg email phone name]
| path_contact_rejected data t email phone name resp :
    reaches_contact data t email phone name ->
    net [] (contact_call cfg email phone name) = Returns resp ->
    success_status (status_code resp) = false ->
    book_path (jsonify [("error", JString "Failed to create contact");
                        ("details", JString (text resp))] 500)
              [contact_call cfg email phone name]
| path_contact_body_raises data t email phone name resp e :
    reaches_contact data t email phone name ->
    net [] (contact_call cfg email phone name) = Returns resp ->
    success_status (status_code resp) = true ->
    result_bind (json_ resp) extract_contact_id = Raises e ->
    book_path (error_reply e) [contact_call cfg email phone name]
| path_no_contact_id data t email phone name resp id :
    reaches_contact data t email phone name ->
    net [] (contact_call cfg email phone name) = Returns resp ->
    success_status (status_code resp) = true ->
    result_bind (json_ resp) extract_contact_id = Returns id ->
    Py.truthy id = false ->
    book_path (jsonify [("error", JString "Failed to get contact ID")] 500)
              [contact_call cfg email phone name]
| path_calendar_call_raises data t email phone name id e :
    reaches_contact data t email phone name ->
    reaches_calendar email phone name id ->
    net [contact_call cfg email phone name] (calendar_call cfg id t name) = Raises e ->
    book_path (error_reply e)
              [contact_call cfg email phone name; calendar_call cfg id t name]
| path_appointment_body_raises data t email phone name id resp e :
    reaches_contact data t email phone name ->
    reaches_calendar email phone name id ->
    net [contact_call cfg email phone name] (calendar_call cfg id t name) = Returns resp ->
    success_status (status_code resp) = true ->
    json_ resp = Raises e ->
    book_path (error_reply e)
              [contact_call cfg email phone name; calendar_call cfg id t name]
| path_booked data t email phone name id resp appointment :
    reaches_contact data t email phone name ->
    reaches_calendar email phone name id ->
    net [contact_call cfg email phone name] (calendar_call cfg id t name) = Returns resp ->
    success_status (status_code resp) = true ->
    json_ resp = Returns appointment ->
    book_path (jsonify [("success", JBool true);
                        ("message", JString "Appointment booked successfully");
                        ("scheduled_time", JString (Datetime.isoformat t));
                        ("appointment", appointment)] 200)
              [contact_call cfg email phone name; calendar_call cfg id t name]
| path_calendar_rejected data t email phone name id resp :
    reaches_contact data t email phone name ->
    reaches_calendar email phone name id ->
    net [contact_call cfg email phone name] (calendar_call cfg id t name) = Returns resp ->
    success_status (status_code resp) = false ->
    book_path (jsonify [("error", JString "Failed to book appointment");
                        ("details", JString (text resp))] 500)
              [contact_call cfg email phone name; calendar_call cfg id t name].

End Paths.

(** ** Sample configuration, requests and networks *)

Definition non_2xx (code : Z) : Prop := ~ (200 <= code <= 299).

Definition example_config : Config :=
  {| ELEVENLABS_API_KEY := Some "xi-key";
     ELEVENLABS_VOICE_ID := Some "voice-1";
     GHL_API_KEY := Some "ghl-key";
     GHL_LOCATION_ID := Some "loc-1";
     GHL_CALENDAR_ID := Some "cal-1" |}.

Definition booking (name phone email selectedSlot : json) : Request :=
  {| get_json := Returns (Py.dict [("name", name); ("phone", phone);
                                   ("email", email);
                                   ("selectedSlot", selectedSlot)]) |}.

Definition example_request : Request :=
  booking (JString "Jane Doe Smith") (JString "5551234567")
          (JString "jane@example.com") (JString "2023-04-25T14:00:00").

Definition respond (code : Z) (body : string) (decoded : result json) : Response :=
  {| status_code := code; text := body; content := body; json_ := decoded |}.

Definition not_json : result json :=
  Raises (Exn (LibraryError "JSONDecodeError")
              "Expecting value: line 1 column 1 (char 0)").

(** A network described by its answers to the contact and appointment
    endpoints (and to anything else). *)
Definition crm (upsert appointment : result Response) : network :=
  fun _ call =>
    if String.eqb (url call) contact_url then upsert else appointment.

Definition contact_created : result Response :=
  Returns (respond 201 "{contact: {id: c456}}"
             (Returns (Py.dict [("contact", Py.dict [("id", JString "c456")])]))).

Definition net_upsert_422 : network :=
  crm (Returns (respond 422 "Unprocessable Entity" not_json)) contact_created.

Definition example_contact_call : PostCall :=
  contact_call example_config (JString "jane@example.com")
    (JString "5551234567") "Jane Doe Smith".


Definition contact_with_id : result Response :=
  Returns (respond 201 "{id: c123}" (Returns (Py.dict [("id", JString "c123")]))).

Definition appointment_created : result Response :=
  Returns (respond 200 "{id: a789}" (Returns (Py.dict [("id", JString "a789")]))).

Definition net_ok : network := crm contact_created appointment_created.

(** The fields of [example_request]. *)
Definition example_fields : gmap string json :=
  Py.dict_map [("name", JString "Jane Doe Smith");
               ("phone", JString "5551234567");
               ("email", JString "jane@example.com");
               ("selectedSlot", JString "2023-04-25T14:00:00")].

(** A field of the JSON payload of an outbound call. *)
Definition payload_field (call : PostCall) (k : string) : option json :=
  match payload call with
  | JObject m => m !! k
  | _ => None
  end.

(** The rule of America/Chicago in force in summer: five hours behind UTC,
    of which one hour of daylight saving. *)
Definition central_daylight : Datetime.tzinfo :=
  Datetime.PytzInfo (-18000) 3600 "CDT".

(** 14:00:00 on 2023-04-25, Chicago time. *)
Definition slot_2023_04_25 : Datetime.datetime :=
  Datetime.mkdatetime 2023 4 25 14 0 0 0 (Some central_daylight).

(** What [localize] raises on a value that already has a tzinfo. *)
Definition not_naive : exn :=
  Exn ValueError "Not naive datetime (tzinfo is already set)".

Definition offset_request : Request :=
  booking (JString "Jane Doe Smith") (JString "5551234567")
          (JString "jane@example.com") (JString "2023-04-25T14:00:00+02:00").

Definition offset_fields : gmap string json :=
  Py.dict_map [("name", JString "Jane Doe Smith");
               ("phone", JString "5551234567");
               ("email", JString "jane@example.com");
               ("selectedSlot", JString "2023-04-25T14:00:00+02:00")].

(** The contact identifier as the specification words it: [id] at top
    level, or nested under a [contact] object. *)
Definition contact_id_by_shape (body : json) : option json :=
  match body with
  | JObject m =>
      match m !! "id" with
      | Some v => Some v
      | None =>
          match m !! "contact" with
          | Some (JObject c) => c !! "id"
          | _ => None
          end
      end
  | _ => None
  end.

(** Whether a key holds a value that counts as an identifier: present and
    truthy. *)
Definition yields_id (o : option json) : bool :=
  match o with
  | Some v => Py.truthy v
  | None => false
  end.

Definition null_contact : result Response :=
  Returns (respond 201 "{contact: null}" (Returns (Py.dict [("contact", JNull)]))).

Definition net_null_contact : network := crm null_contact appointment_created.

Definition null_phone_request : Request :=
  booking (JString "Jane Doe") JNull JNull (JString "2023-04-25T14:00:00").

Definition null_phone_fields : gmap string json :=
  Py.dict_map [("name", JString "Jane Doe"); ("phone", JNull); ("email", JNull);
               ("selectedSlot", JString "2023-04-25T14:00:00")].

Definition no_email_request : Request :=
  {| get_json := Returns (Py.dict [("name", JString "Jane Doe");
                                   ("phone", JString "5551234567");
                                   ("selectedSlot", JString "2023-04-25T14:00:00")]) |}.

Definition no_email_fields : gmap string json :=
  Py.dict_map [("name", JString "Jane Doe"); ("phone", JString "5551234567");
               ("selectedSlot", JString "2023-04-25T14:00:00")].

Definition bad_slot_request : Request :=
  booking (JString "Jane Doe") (JString "5551234567")
          (JString "jane@example.com") (JString "not-a-date").

Definition bad_slot_fields : gmap string json :=
  Py.dict_map [("name", JString "Jane Doe"); ("phone", JString "5551234567");
               ("email", JString "jane@example.com");
               ("selectedSlot", JString "not-a-date")].

(** A key that a dict lacks. *)
Definition absent (m : gmap string json) (f : string) : bool :=
  negb (bool_decide (is_Some (m !! f))).

Definition voice_request : Request :=
  {| get_json := Returns (Py.dict [("text", JString "hello")]) |}.

Definition net_voice_401 : network :=
  fun _ _ => Returns (respond 401 "unauthorized" not_json).

(** The call that [generate_voice] makes for the text [text_value]. *)
Definition voice_call (cfg : Config) (text_value : json) : PostCall :=
  {| url := elevenlabs_url cfg;
     payload :=
       Py.dict [("text", text_value);
                ("model_id", JString "eleven_monolingual_v1");
                ("voice_settings",
                 Py.dict [("stability", JFloat (S754_finite false 1 (-1)));
                          ("similarity_boost",
                           JFloat (S754_finite false 1 (-1)))])];
     headers :=
       <["xi-api-key" := env_str (ELEVENLABS_API_KEY cfg)]>
       (<["Content-Type" := "application/json"]>
       (<["Accept" := "audio/mpeg"]> ∅)) |}.

Definition server_error_class (code : Z) : Prop := 500 <= code <= 599.

(** *** The name as the specification words it: whitespace-delimited tokens *)

(** Space, tab, line feed, vertical tab, form feed, carriage return. *)
Definition is_whitespace (a : ascii) : bool :=
  let n := nat_of_ascii a in
  ((n =? 32) || ((9 <=? n) && (n <=? 13)))%nat.

(** The maximal runs of characters that are not whitespace. *)
Fixpoint tokens (s : string) : list string :=
  match s with
  | EmptyString => []
  | String a s' =>
      if is_whitespace a then tokens s'
      else
        match s' with
        | EmptyString => [String a EmptyString]
        | String b _ =>
            if is_whitespace b then String a EmptyString :: tokens s'
            else
              match tokens s' with
              | t :: ts => String a t :: ts
              | [] => [String a EmptyString]
              end
        end
  end.

Definition first_token (name : string) : string := hd "" (tokens name).

Definition remaining_tokens_joined (name : string) : string :=
  Str.join " " (tail (tokens name)).

(** A token: not empty and free of whitespace. *)
Definition clean_token (t : string) : Prop :=
  t <> "" /\ forallb (fun a => negb (is_whitespace a)) (list_ascii_of_string t) = true.

Definition tabbed_name : string := "Jane" +:+ String (ascii_of_nat 9) "Doe".

(** *** Bodies that are not JSON objects *)

(** [None], booleans and numbers: the values on which [in] raises. *)
Definition is_scalar (v : json) : bool :=
  match v with
  | JNull | JBool _ | JInt _ | JFloat _ => true
  | _ => false
  end.

(** Strings and lists: the values other than dicts that support [in]. *)
Definition is_sequence (v : json) : bool :=
  match v with
  | JString _ | JArray _ => true
  | _ => false
  end.

Definition not_iterable (v : json) : exn :=
  Exn TypeError ("argument of type '" +:+ Py.type_name v +:+ "' is not iterable").

Definition null_request : Request := {| get_json := Returns JNull |}.

Definition array_request : Request := {| get_json := Returns (JArray []) |}.

(** ** The paths through the voice handler

    [voice_path cfg request net reply calls]: one constructor per way out of
    [generate_voice], in the order of the source. *)

Definition api_key_missing : Reply :=
  jsonify [("error", JString "ElevenLabs API key not configured")] 500.

Definition voice_id_missing : Reply :=
  jsonify [("error", JString "ElevenLabs voice ID not configured")] 500.

Definition text_missing : Reply :=
  jsonify [("error", JString "Missing 'text' field")] 400.

Section VoicePaths.
Variables (cfg : Config) (request : Request) (net : network).

(** The request has a text that can be logged. *)
Record has_text (data text_value : json) : Prop := {
  ht_body : get_json request = Returns data;
  ht_truthy : Py.truthy data = true;
  ht_member : Py.contains "text" data = Returns true;
  ht_text : Py.getitem data "text" = Returns text_value;
  ht_slice : exists prefix, Py.slice_to text_value 50 = Returns prefix
}.

Record reaches_synthesis (data text_value : json) : Prop := {
  rs_text : has_text data text_value;
  rs_key : Py.env_truthy (ELEVENLABS_API_KEY cfg) = true;
  rs_voice : Py.env_truthy (ELEVENLABS_VOICE_ID cfg) = true
}.

Inductive voice_path : Reply -> list PostCall -> Prop :=
| voice_body_raises e :
    get_json request = Raises e -> voice_path (error_reply e) []
| voice_falsy_body data :
    get_json request = Returns data ->
    Py.truthy data = false ->
    voice_path text_missing []
| voice_member_raises data e :
    get_json request = Returns data ->
    Py.truthy data = true ->
    Py.contains "text" data = Raises e ->
    voice_path (error_reply e) []
| voice_no_text data :
    get_json request = Returns data ->
    Py.truthy data = true ->
    Py.contains "text" data = Returns false ->
    voice_path text_missing []
| voice_subscript_raises data e :
    get_json request = Returns data ->
    Py.truthy data = true ->
    Py.contains "text" data = Returns true ->
    Py.getitem data "text" = Raises e ->
    voice_path (error_reply e) []
| voice_slice_raises data text_value e :
    get_json request = Returns data ->
    Py.truthy data = true ->
    Py.contains "text" data = Returns true ->
    Py.getitem data "text" = Returns text_value ->
    Py.slice_to text_value 50 = Raises e ->
    voice_path (error_reply e) []
| voice_no_api_key data text_value :
    has_text data text_value ->
    Py.env_truthy (ELEVENLABS_API_KEY cfg) = false ->
    voice_path api_key_missing []
| voice_no_voice_id data text_value :
    has_text data text_value ->
    Py.env_truthy (ELEVENLABS_API_KEY cfg) = true ->
    Py.env_truthy (ELEVENLABS_VOICE_ID cfg) = false ->
    voice_path voice_id_missing []
| voice_call_raises data text_value e :
    reaches_synthesis data text_value ->
    net [] (voice_call cfg text_value) = Raises e ->
    voice_path (error_reply e) [voice_call cfg text_value]
| voice_generated data text_value resp :
    reaches_synthesis data text_value ->
    net [] (voice_call cfg text_value) = Returns resp ->
    status_code resp = 200 ->
    voice_path (send_file (content resp) "audio/mpeg" true "voice.mp3")
               [voice_call cfg text_value]
| voice_rejected data text_value resp :
    reaches_synthesis data text_value ->
    net [] (voice_call cfg text_value) = Returns resp ->
    status_code resp <> 200 ->
    voice_path (jsonify [("error", JString "Failed to generate voice");
                         ("details", JString (text resp))] (status_code resp))
               [voice_call cfg text_value].

End VoicePaths.

(** *** Sample voice requests and networks *)

Definition empty_body_request : Request := {| get_json := Returns (JObject ∅) |}.

Definition numeric_text_request : Request :=
  {| get_json := Returns (Py.dict [("text", JInt 5)]) |}.

Definition no_voice_config : Config :=
  {| ELEVENLABS_API_KEY := Some "xi-key";
     ELEVENLABS_VOICE_ID := None;
     GHL_API_KEY := Some "ghl-key";
     GHL_LOCATION_ID := Some "loc-1";
     GHL_CALENDAR_ID := Some "cal-1" |}.

Definition net_voice_ok : network :=
  fun _ _ => Returns (respond 200 "ID3-audio-bytes" not_json).

Definition connection_refused : exn :=
  Exn (LibraryError "ConnectionError") "Connection refused".

Definition net_down : network := fun _ _ => Raises connection_refused.

(** Both ElevenLabs settings are there. *)
Definition voice_configured (cfg : Config) : bool :=
  Py.env_truthy (ELEVENLABS_API_KEY cfg) && Py.env_truthy (ELEVENLABS_VOICE_ID cfg).

(** A reply that is a JSON object whose [error] is a string. *)
Definition is_error_reply (r : Reply) : Prop :=
  exists msg, reply_field r "error" = Some (JString msg).

(** *** Sample booking configurations and requests *)

Definition no_calendar_config : Config :=
  {| ELEVENLABS_API_KEY := Some "xi-key";
     ELEVENLABS_VOICE_ID := Some "voice-1";
     GHL_API_KEY := Some "ghl-key";
     GHL_LOCATION_ID := Some "loc-1";
     GHL_CALENDAR_ID := Some "" |}.

Definition numeric_name_request : Request :=
  booking (JInt 42) (JString "5551234567") (JString "jane@example.com")
          (JString "2023-04-25T14:00:00").

Definition numeric_name_fields : gmap string json :=
  Py.dict_map [("name", JInt 42); ("phone", JString "5551234567");
               ("email", JString "jane@example.com");
               ("selectedSlot", JString "2023-04-25T14:00:00")].

Definition configuration_incomplete : Reply :=
  jsonify [("error", JString "GoHighLevel API configuration incomplete")] 500.

Definition example_calendar_call : PostCall :=
  calendar_call example_config (JString "c456") slot_2023_04_25 "Jane Doe Smith".

(** *** Slots that the parser accepts by dropping their tail *)

Definition long_fraction_request : Request :=
  booking (JString "Jane Doe Smith") (JString "5551234567")
          (JString "jane@example.com") (JString "2023-04-25T14:00:00.123456789").

(** ["2023-04-25T14:00:00"] followed by one NUL character. *)
Definition nul_terminated_slot : string :=
  "2023-04-25T14:00:00" +:+ String (ascii_of_nat 0) "".

Definition nul_terminated_request : Request :=
  booking (JString "Jane Doe Smith") (JString "5551234567")
          (JString "jane@example.com") (JString nul_terminated_slot).

(** * Properties *)

Section PathsOfBooking.
Variables (cfg : Config) (request : Request) (net : network).

(** Every run of [book_appointment] follows one of the paths. *)
Lemma book_appointment_paths :
  book_path cfg request net (run (book_appointment cfg request) net).1
            (run (book_appointment cfg request) net).2.
Proof.
  cbv beta iota delta
    [run book_appointment try_except mbind mret M_bind M_ret lift requests_post].
  destruct (get_json request) as [data|e] eqn:Hbody; cbn [fst snd];
    [|by apply path_body_raises].
  destruct (first_missing required_fields data) as [[field|]|e] eqn:Hvalid;
    cbn [fst snd]; [by eapply path_missing_field| |by eapply path_validation_raises].
  destruct (Py.getitem data "name") as [nv|e] eqn:Hname; cbn [fst snd];
    [|by eapply path_name_raises].
  destruct (parse_selected_slot data) as [t|e] eqn:Htime; cbn [fst snd];
    [|by eapply path_invalid_time].
  fold (config_complete cfg).
  destruct (config_complete cfg) eqn:Hcfg; cbn [negb fst snd];
    [|by eapply path_config_incomplete].
  destruct (Py.getitem data "email") as [email|e] eqn:Hemail; cbn [fst snd];
    [|eapply path_inputs_raise; eauto; unfold payload_inputs; by rewrite Hemail].
  destruct (Py.getitem data "phone") as [phone|e] eqn:Hphone; cbn [fst snd];
    [|eapply path_inputs_raise; eauto; unfold payload_inputs; by rewrite Hemail, Hphone].
  assert (Hin : forall name, nv = JString name ->
                 reaches_contact cfg request data t email phone name).
  { intros name ->. split; auto. unfold payload_inputs.
    by rewrite Hemail, Hphone, Hname. }
  assert (Hbad : (forall s, nv <> JString s) ->
                 book_path cfg request net (error_reply
                   (Exn AttributeError
                      ("'" +:+ Py.type_name nv +:+ "' object has no attribute '"
                       +:+ "split" +:+ "'"))) []).
  { intros Hns. eapply path_inputs_raise; eauto. unfold payload_inputs.
    rewrite Hemail, Hphone, Hname. cbn [result_bind].
    destruct nv; try reflexivity. by destruct (Hns s). }
  destruct nv as [| | | |name| |]; cbn [fst snd];
    try (by apply Hbad; discriminate).
  specialize (Hin name eq_refl). clear Hbad.
  fold (contact_call cfg email phone name). cbn [app].
  destruct (net [] (contact_call cfg email phone name)) as [resp|e] eqn:Hnet1;
    cbn [fst snd]; [|by eapply path_contact_call_raises].
  destruct (success_status (status_code resp)) eqn:Hok1; cbn [negb fst snd];
    [|by eapply path_contact_rejected].
  destruct (json_ resp) as [body|e] eqn:Hjson1; cbn [fst snd];
    [|eapply path_contact_body_raises; eauto; by rewrite Hjson1].
  destruct (extract_contact_id body) as [id|e] eqn:Hid; cbn [fst snd];
    [|eapply path_contact_body_raises; eauto; by rewrite Hjson1].
  destruct (Py.truthy id) eqn:Htruthy; cbn [negb fst snd];
    [|eapply path_no_contact_id; eauto; by rewrite Hjson1].
  assert (Hcal : reaches_calendar cfg net email phone name id).
  { split; [|done]. by exists resp, body. }
  fold (calendar_call cfg id t name).
  destruct (net [contact_call cfg email phone name] (calendar_call cfg id t name))
    as [resp2|e] eqn:Hnet2; cbn [fst snd]; [|by eapply path_calendar_call_raises].
  destruct (success_status (status_code resp2)) eqn:Hok2; cbn [fst snd];
    [|by eapply path_calendar_rejected].
  destruct (json_ resp2) as [appointment|e] eqn:Hjson2; cbn [fst snd].
  - by eapply path_booked.
  - by eapply path_appointment_body_raises.
Qed.
End PathsOfBooking.

Lemma book_appointment_inv cfg request net reply calls :
  run (book_appointment cfg request) net = (reply, calls) ->
  book_path cfg request net reply calls.
Proof.
  intros H. pose proof (book_appointment_paths cfg request net) as P.
  by rewrite H in P.
Qed.

Lemma success_status_2xx code :
  success_status code = true -> 200 <= code <= 299.
Proof. unfold success_status. lia. Qed.

Lemma singleton_split {A} (x : A) before call after :
  [x] = before ++ call :: after -> before = [] /\ call = x /\ after = [].
Proof.
  destruct before as [|b before]; cbn; intros H.
  - by injection H as -> <-.
  - injection H as -> H. by destruct before.
Qed.

Lemma pair_split {A} (x y : A) before call after :
  [x; y] = before ++ call :: after ->
  (before = [] /\ call = x /\ after = [y]) \/
  (before = [x] /\ call = y /\ after = []).
Proof.
  destruct before as [|b before]; cbn; intros H.
  - injection H as -> <-. by left.
  - injection H as -> H. apply singleton_split in H as (-> & -> & ->). by right.
Qed.

(** A CRM answer other than 200 or 201 ends the booking with a 500 that
    holds the upstream body and nothing else of the answer. *)
Lemma crm_rejection cfg request net reply calls before call after resp :
  run (book_appointment cfg request) net = (reply, calls) ->
  calls = before ++ call :: after ->
  net before call = Returns resp ->
  success_status (status_code resp) = false ->
  after = [] /\
  ((before = [] /\ url call = contact_url /\
    reply = jsonify [("error", JString "Failed to create contact");
                     ("details", JString (text resp))] 500)
   \/
   (exists upsert, before = [upsert] /\ url upsert = contact_url /\
      url call = calendar_url /\
      reply = jsonify [("error", JString "Failed to book appointment");
                       ("details", JString (text resp))] 500)).
Proof.
  intros Hrun Hcalls Hnet Hbad.
  apply book_appointment_inv in Hrun.
  destruct Hrun; subst;
    try (by destruct before);
    try (apply singleton_split in Hcalls as (-> & -> & ->));
    try (apply pair_split in Hcalls as [(-> & -> & ->)|(-> & -> & ->)]);
    try congruence;
    try (match goal with
         | H : reaches_calendar _ _ _ _ _ _ |- _ =>
             destruct H as [(r & b & Hn & Hs & _) _]; congruence
         end).
  - split; [done|]. left. repeat split; congruence.
  - split; [done|]. right. eexists. repeat split; congruence.
Qed.

(** C1: when a CRM call of a /book request is answered with a non-2xx
    status, the reply is a 500 whose [details] is the upstream body, and that
    call is the last one made: after a failed contact upsert the appointment
    endpoint is not called, and after a failed appointment creation nothing
    follows the two calls (the contact stays as created). *)
Theorem upstream_failure_aborts_booking cfg request net reply calls
    before call after resp :
  run (book_appointment cfg request) net = (reply, calls) ->
  calls = before ++ call :: after ->
  net before call = Returns resp ->
  non_2xx (status_code resp) ->
  status reply = 500 /\
  reply_field reply "details" = Some (JString (text resp)) /\
  after = [] /\
  ((url call = contact_url /\ before = [] /\
    reply_field reply "error" = Some (JString "Failed to create contact") /\
    Forall (fun c => url c <> calendar_url) calls)
   \/
   (url call = calendar_url /\
    (exists upsert, before = [upsert] /\ url upsert = contact_url) /\
    reply_field reply "error" = Some (JString "Failed to book appointment"))).
Proof.
  intros Hrun Hcalls Hnet Hbad.
  assert (Hrej : success_status (status_code resp) = false).
  { destruct (success_status (status_code resp)) eqn:Hs; [|done].
    apply success_status_2xx in Hs. by destruct Hbad. }
  destruct (crm_rejection _ _ _ _ _ _ _ _ _ Hrun Hcalls Hnet Hrej)
    as (-> & [(-> & Hurl & ->)|(upsert & -> & Hup & Hurl & ->)]).
  - split; [reflexivity|]. split; [reflexivity|]. split; [reflexivity|]. left.
    split; [exact Hurl|]. split; [reflexivity|]. split; [reflexivity|].
    subst calls. repeat constructor. rewrite Hurl. discriminate.
  - split; [reflexivity|]. split; [reflexivity|]. split; [reflexivity|]. right.
    split; [exact Hurl|]. split; [by exists upsert|]. reflexivity.
Qed.


Lemma upstream_failure_aborts_booking_witness :
  let reply :=
    jsonify [("error", JString "Failed to create contact");
             ("details", JString "Unprocessable Entity")] 500 in
  run (book_appointment example_config example_request) net_upsert_422
    = (reply, [example_contact_call]) /\
  non_2xx 422 /\
  status reply = 500 /\
  reply_field reply "details" = Some (JString "Unprocessable Entity").
Proof.
  intros reply.
  assert (Hrun : run (book_appointment example_config example_request)
                   net_upsert_422 = (reply, [example_contact_call])).
  { vm_compute. reflexivity. }
  assert (Hbad : non_2xx 422) by (unfold non_2xx; lia).
  pose proof (upstream_failure_aborts_booking example_config example_request
    net_upsert_422 reply [example_contact_call] [] example_contact_call []
    (respond 422 "Unprocessable Entity" not_json)
    Hrun eq_refl eq_refl Hbad) as (H1 & H2 & _).
  exact (conj Hrun (conj Hbad (conj H1 H2))).
Defined.

Lemma getitem_object m k v :
  m !! k = Some v -> Py.getitem (JObject m) k = Returns v.
Proof. intros H. cbn. by rewrite H. Qed.

Lemma parse_slot_2023_04_25 m :
  m !! "selectedSlot" = Some (JString "2023-04-25T14:00:00") ->
  parse_selected_slot (JObject m) = Returns slot_2023_04_25.
Proof.
  intros H. unfold parse_selected_slot.
  rewrite (getitem_object _ _ _ H). cbn [result_bind].
  vm_compute. reflexivity.
Qed.

(** C2: for [selectedSlot = "2023-04-25T14:00:00"] the normalized instant is
    14:00:00 on 2023-04-25 under the America/Chicago rule of that date
    (daylight time, UTC-05:00).  Once the contact endpoint has given a
    contact identifier, the appointment endpoint is called, with the
    ISO-8601 form of that instant with its offset as [startTime]; no call to
    the appointment endpoint carries anything else; and a 200 reply comes
    after such a call and echoes the same string as [scheduled_time]. *)
Theorem slot_2023_04_25_serialized_with_offset cfg request net reply calls m :
  get_json request = Returns (JObject m) ->
  m !! "selectedSlot" = Some (JString "2023-04-25T14:00:00") ->
  run (book_appointment cfg request) net = (reply, calls) ->
  parse_selected_slot (JObject m) = Returns slot_2023_04_25 /\
  Pytz.localize central (Datetime.mkdatetime 2023 4 25 14 0 0 0 None)
    = Returns slot_2023_04_25 /\
  Datetime.utcoffset slot_2023_04_25 = Some (Datetime.hours (-5)) /\
  Datetime.isoformat slot_2023_04_25 = "2023-04-25T14:00:00-05:00" /\
  (forall call, call ∈ calls -> url call = calendar_url ->
     payload_field call "startTime" = Some (JString "2023-04-25T14:00:00-05:00")) /\
  (forall upsert rest resp body id,
     calls = upsert :: rest ->
     net [] upsert = Returns resp ->
     success_status (status_code resp) = true ->
     json_ resp = Returns body ->
     extract_contact_id body = Returns id ->
     Py.truthy id = true ->
     exists appointment,
       rest = [appointment] /\ url appointment = calendar_url /\
       payload_field appointment "startTime"
         = Some (JString "2023-04-25T14:00:00-05:00")) /\
  (status reply = 200 ->
     reply_field reply "scheduled_time"
       = Some (JString "2023-04-25T14:00:00-05:00") /\
     exists upsert appointment,
       calls = [upsert; appointment] /\
       url upsert = contact_url /\ url appointment = calendar_url /\
       payload_field appointment "startTime"
         = Some (JString "2023-04-25T14:00:00-05:00")).
Proof.
  intros Hbody Hslot Hrun.
  pose proof (parse_slot_2023_04_25 m Hslot) as Hparse.
  split; [exact Hparse|].
  split; [by vm_compute|]. split; [reflexivity|]. split; [by vm_compute|].
  apply book_appointment_inv in Hrun.
  assert (Ht : forall data t email phone name,
             reaches_contact cfg request data t email phone name ->
             t = slot_2023_04_25).
  { intros data t email phone name [Hb _ Htime _ _].
    rewrite Hbody in Hb. injection Hb as <-. congruence. }
  assert (Hstart : forall id name,
            payload_field (calendar_call cfg id slot_2023_04_25 name) "startTime"
            = Some (JString "2023-04-25T14:00:00-05:00")) by reflexivity.
  destruct Hrun as
    [ e Hb
    | data e Hb Hvalid
    | data field Hb Hvalid
    | data e Hb Hvalid Hn
    | data nv e Hb Hvalid Hn Htime
    | data nv t Hb Hvalid Hn Htime Hc
    | data nv t e Hb Hvalid Hn Htime Hc Hinputs
    | data t email phone name e Hr Hn1
    | data t email phone name resp Hr Hn1 Hs1
    | data t email phone name resp e Hr Hn1 Hs1 Hx
    | data t email phone name resp id Hr Hn1 Hs1 Hx Hid
    | data t email phone name id e Hr Hk Hn2
    | data t email phone name id resp e Hr Hk Hn2 Hs2 Hj2
    | data t email phone name id resp appointment Hr Hk Hn2 Hs2 Hj2
    | data t email phone name id resp Hr Hk Hn2 Hs2 ];
    try (pose proof (Ht _ _ _ _ _ Hr) as ->).
  1-7: split; [intros call Hin; by apply elem_of_nil in Hin|];
       split; [intros ? ? ? ? ? Hc'; discriminate Hc'|discriminate].
  1-4: split; [intros call Hin Hurl; apply list_elem_of_singleton in Hin as ->;
               discriminate Hurl|];
       (split; [|discriminate]);
       intros u rest r b i Hc' Hn' Hs' Hj' Hx' Hi'; injection Hc' as <- <-;
       rewrite Hn1 in Hn'; try discriminate Hn'; injection Hn' as <-;
       try congruence; rewrite Hj' in Hx; cbn [result_bind] in Hx; congruence.
  1-4: split;
       [intros call Hin Hurl;
        apply elem_of_cons in Hin as [->|Hin];
        [discriminate Hurl|apply list_elem_of_singleton in Hin as ->; apply Hstart]|];
       split;
       [intros u rest r b i Hc' _ _ _ _ _; injection Hc' as <- <-;
        eexists; split; [reflexivity|]; split; [reflexivity|apply Hstart]|];
       try discriminate.
  intros _. split; [reflexivity|].
  exists (contact_call cfg email phone name),
         (calendar_call cfg id slot_2023_04_25 name).
  split; [reflexivity|]. split; [reflexivity|]. split; [reflexivity|apply Hstart].
Qed.

Lemma slot_2023_04_25_serialized_with_offset_witness :
  let r := run (book_appointment example_config example_request) net_ok in
  get_json example_request = Returns (JObject example_fields) /\
  example_fields !! "selectedSlot" = Some (JString "2023-04-25T14:00:00") /\
  r.2 = [example_contact_call; example_calendar_call] /\
  url example_calendar_call = calendar_url /\
  payload_field example_calendar_call "startTime"
    = Some (JString "2023-04-25T14:00:00-05:00") /\
  status r.1 = 200 /\
  reply_field r.1 "scheduled_time" = Some (JString "2023-04-25T14:00:00-05:00").
Proof.
  intros r.
  assert (Hbody : get_json example_request = Returns (JObject example_fields))
    by reflexivity.
  assert (Hslot : example_fields !! "selectedSlot"
                  = Some (JString "2023-04-25T14:00:00")) by reflexivity.
  assert (Hst : status r.1 = 200) by (vm_compute; reflexivity).
  assert (Hcalls : r.2 = [example_contact_call; example_calendar_call])
    by (vm_compute; reflexivity).
  pose proof (slot_2023_04_25_serialized_with_offset example_config
    example_request net_ok r.1 r.2 example_fields Hbody Hslot
    (surjective_pairing r)) as (_ & _ & _ & _ & _ & _ & Hreply).
  destruct (Hreply Hst) as (Hsched & upsert & appointment & Hc & _ & Hurl & Hstart).
  rewrite Hcalls in Hc. injection Hc as <- <-.
  exact (conj Hbody (conj Hslot (conj Hcalls (conj Hurl
          (conj Hstart (conj Hst Hsched)))))).
Defined.

(** On a dict the validation loop never raises: it returns the first
    required field that is not a key. *)
Lemma first_missing_object fields m :
  first_missing fields (JObject m) =
  Returns (List.find (absent m) fields).
Proof.
  induction fields as [|f fields IH]; [done|].
  cbn. unfold absent at 1.
  destruct (bool_decide (is_Some (m !! f))); cbn; [exact IH|done].
Qed.

Lemma first_missing_all_present m :
  (forall f, f ∈ required_fields -> is_Some (m !! f)) ->
  first_missing required_fields (JObject m) = Returns None.
Proof.
  intros H. rewrite first_missing_object.
  destruct (List.find _ _) as [f|] eqn:Hf; [|done].
  apply find_some in Hf as [Hin Hf].
  apply list_elem_of_In, H in Hin. unfold absent in Hf.
  by rewrite bool_decide_eq_true_2 in Hf.
Qed.

Lemma present_iff m f : absent m f = false <-> is_Some (m !! f).
Proof. unfold absent. by rewrite negb_false_iff, bool_decide_eq_true. Qed.

(** A check by evaluation that a concrete body has the four fields. *)
Lemma all_present_by_evaluation (m : gmap string json) :
  forallb (fun f => negb (absent m f)) required_fields = true ->
  forall f, f ∈ required_fields -> is_Some (m !! f).
Proof.
  intros H f Hf. rewrite forallb_forall in H.
  apply present_iff, negb_true_iff, H. by apply list_elem_of_In.
Qed.

Lemma localize_aware dt tzi :
  Datetime.tz dt = Some tzi -> Pytz.localize central dt = Raises not_naive.
Proof. intros H. unfold Pytz.localize. cbn. by rewrite H. Qed.

(** C3 (amended): a [selectedSlot] string that parses with a UTC offset or
    time zone is not localized: [localize] refuses a value that already has
    a tzinfo, so the time step fails, /book answers 400 with that message
    and no call is made. *)
Theorem slot_with_offset_is_rejected cfg request net reply calls m s dt tzi :
  get_json request = Returns (JObject m) ->
  (forall f, f ∈ required_fields -> is_Some (m !! f)) ->
  m !! "selectedSlot" = Some (JString s) ->
  Datetime.fromisoformat_str s = Returns dt ->
  Datetime.tz dt = Some tzi ->
  run (book_appointment cfg request) net = (reply, calls) ->
  parse_selected_slot (JObject m) = Raises not_naive /\
  reply = jsonify [("error", JString
             "Invalid datetime format: Not naive datetime (tzinfo is already set)")]
            400 /\
  calls = [].
Proof.
  intros Hbody Hall Hslot Hparse Htz Hrun.
  assert (Hfail : parse_selected_slot (JObject m) = Raises not_naive).
  { unfold parse_selected_slot. rewrite (getitem_object _ _ _ Hslot).
    cbn [result_bind Datetime.fromisoformat]. rewrite Hparse. cbn [result_bind].
    by eapply localize_aware. }
  split; [exact Hfail|].
  apply book_appointment_inv in Hrun.
  pose proof (first_missing_all_present m Hall) as Hvalid.
  destruct Hrun;
    repeat match goal with
      | H : get_json request = _ |- _ =>
          rewrite Hbody in H; first [discriminate H | injection H as <-]
      | H : reaches_contact _ _ _ _ _ _ _ |- _ => destruct H
      end;
    try congruence.
  - destruct (Hall "name") as [v Hv]; [set_solver|].
    rewrite (getitem_object _ _ _ Hv) in *. discriminate.
  - rewrite Hfail in *.
    match goal with H : Raises _ = Raises _ |- _ => injection H as <- end.
    done.
Qed.

Lemma slot_with_offset_is_rejected_witness :
  let r := run (book_appointment example_config offset_request) net_ok in
  get_json offset_request = Returns (JObject offset_fields) /\
  Datetime.fromisoformat_str "2023-04-25T14:00:00+02:00"
    = Returns (Datetime.mkdatetime 2023 4 25 14 0 0 0
                 (Some (Datetime.Timezone (Datetime.hours 2)))) /\
  status r.1 = 400 /\ r.2 = [].
Proof.
  intros r.
  assert (Hbody : get_json offset_request = Returns (JObject offset_fields))
    by reflexivity.
  assert (Hparse : Datetime.fromisoformat_str "2023-04-25T14:00:00+02:00"
    = Returns (Datetime.mkdatetime 2023 4 25 14 0 0 0
                 (Some (Datetime.Timezone (Datetime.hours 2)))))
    by (vm_compute; reflexivity).
  assert (Hall : forall f, f ∈ required_fields -> is_Some (offset_fields !! f))
    by (apply all_present_by_evaluation; vm_compute; reflexivity).
  pose proof (slot_with_offset_is_rejected example_config offset_request net_ok
    r.1 r.2 offset_fields _ _ _ Hbody Hall eq_refl Hparse eq_refl
    (surjective_pairing r)) as (_ & Hreply & Hcalls).
  refine (conj Hbody (conj Hparse (conj _ Hcalls))).
  by rewrite Hreply.
Defined.

(** C3 (as stated) fails: for ["2023-04-25T14:00:00+02:00"] the time step
    does not succeed, and /book answers 400 without any call. *)
Lemma slot_with_offset_not_overwritten :
  parse_selected_slot (JObject offset_fields) = Raises not_naive /\
  (forall t, parse_selected_slot (JObject offset_fields) <> Returns t) /\
  run (book_appointment example_config offset_request) net_ok
    = (jsonify [("error", JString
         "Invalid datetime format: Not naive datetime (tzinfo is already set)")]
         400, []).
Proof.
  assert (H : parse_selected_slot (JObject offset_fields) = Raises not_naive)
    by (vm_compute; reflexivity).
  split; [exact H|]. split; [intros t; rewrite H; discriminate|].
  vm_compute. reflexivity.
Qed.

(** *** Extraction of the contact identifier *)

Lemma extract_top_level m v :
  m !! "id" = Some v -> Py.truthy v = true ->
  extract_contact_id (JObject m) = Returns v.
Proof.
  intros Hid Hv. unfold extract_contact_id. cbn. rewrite Hid. cbn. by rewrite Hv.
Qed.

Lemma extract_nested m c :
  yields_id (m !! "id") = false -> m !! "contact" = Some (JObject c) ->
  extract_contact_id (JObject m) = Returns (default JNull (c !! "id")).
Proof.
  intros Hid Hc. unfold extract_contact_id. cbn. rewrite Hc.
  destruct (m !! "id") as [v|]; cbn in *; [by rewrite Hid|done].
Qed.

Lemma extract_no_contact m :
  yields_id (m !! "id") = false -> m !! "contact" = None ->
  extract_contact_id (JObject m) = Returns JNull.
Proof.
  intros Hid Hc. unfold extract_contact_id. cbn. rewrite Hc.
  destruct (m !! "id") as [v|]; cbn in *; [by rewrite Hid|done].
Qed.

(** What follows an accepted answer of the contact endpoint. *)
Lemma after_upsert cfg request net reply calls upsert rest resp :
  run (book_appointment cfg request) net = (reply, calls) ->
  calls = upsert :: rest ->
  net [] upsert = Returns resp ->
  success_status (status_code resp) = true ->
  (exists e, result_bind (json_ resp) extract_contact_id = Raises e /\
             reply = error_reply e /\ rest = []) \/
  (exists id, result_bind (json_ resp) extract_contact_id = Returns id /\
              Py.truthy id = false /\
              reply = jsonify [("error", JString "Failed to get contact ID")] 500 /\
              rest = []) \/
  (exists id t name,
      result_bind (json_ resp) extract_contact_id = Returns id /\
      Py.truthy id = true /\ rest = [calendar_call cfg id t name]).
Proof.
  intros Hrun Hcalls Hnet Hok.
  apply book_appointment_inv in Hrun.
  destruct Hrun; try discriminate Hcalls; injection Hcalls as <- <-;
    try match goal with
      | H : reaches_calendar _ _ _ _ _ _ |- _ =>
          destruct H as [(r & b & Hn & _ & Hj & Hx) Ht];
          rewrite Hnet in Hn; injection Hn as <-
      end;
    try match goal with
      | H : net [] _ = _ |- _ => rewrite Hnet in H;
          first [discriminate H | injection H as <-]
      end;
    try congruence.
  - left. eauto.
  - right; left. eauto.
  - right; right. exists id, t, name. rewrite Hj. cbn. eauto.
  - right; right. exists id, t, name. rewrite Hj. cbn. eauto.
  - right; right. exists id, t, name. rewrite Hj. cbn. eauto.
  - right; right. exists id, t, name. rewrite Hj. cbn. eauto.
Qed.

(** C4 (amended): after a contact upsert answered 200 or 201 with a JSON
    object, the identifier is the top-level [id] when that is present and
    truthy, else the [id] under the [contact] object; when [contact] is
    absent or an object and neither gives a truthy identifier, /book answers
    500 "Failed to get contact ID" and stops.  Whatever the body, the
    appointment endpoint is only called with an identifier obtained this
    way. *)
Theorem contact_id_from_two_shapes cfg request net reply calls upsert rest resp :
  run (book_appointment cfg request) net = (reply, calls) ->
  calls = upsert :: rest ->
  net [] upsert = Returns resp ->
  success_status (status_code resp) = true ->
  extract_contact_id (Py.dict [("id", JString "c123")]) = Returns (JString "c123") /\
  extract_contact_id (Py.dict [("contact", Py.dict [("id", JString "c456")])])
    = Returns (JString "c456") /\
  (forall m v,
     json_ resp = Returns (JObject m) ->
     m !! "id" = Some v -> Py.truthy v = true ->
     exists t name, rest = [calendar_call cfg v t name]) /\
  (forall m c v,
     json_ resp = Returns (JObject m) ->
     yields_id (m !! "id") = false ->
     m !! "contact" = Some (JObject c) ->
     c !! "id" = Some v -> Py.truthy v = true ->
     exists t name, rest = [calendar_call cfg v t name]) /\
  (forall m,
     json_ resp = Returns (JObject m) ->
     yields_id (m !! "id") = false ->
     (m !! "contact" = None \/
      exists c, m !! "contact" = Some (JObject c) /\ yields_id (c !! "id") = false) ->
     reply = jsonify [("error", JString "Failed to get contact ID")] 500 /\
     rest = []) /\
  (forall call, call ∈ rest ->
     exists body id,
       json_ resp = Returns body /\ extract_contact_id body = Returns id /\
       Py.truthy id = true /\ url call = calendar_url /\
       payload_field call "contactId" = Some id).
Proof.
  intros Hrun Hcalls Hnet Hok.
  pose proof (after_upsert _ _ _ _ _ _ _ _ Hrun Hcalls Hnet Hok) as Hafter.
  split; [by vm_compute|]. split; [by vm_compute|].
  split; [|split; [|split]].
  - intros m v Hj Hid Hv. rewrite Hj in Hafter. cbn [result_bind] in Hafter.
    rewrite (extract_top_level _ _ Hid Hv) in Hafter.
    destruct Hafter as [(e & He & _)|[(id & Hx & Hf & _)|(id & t & name & Hx & _ & Hr)]];
      [discriminate He|injection Hx as <-; congruence|injection Hx as <-; eauto].
  - intros m c v Hj Hid Hc Hcid Hv. rewrite Hj in Hafter. cbn [result_bind] in Hafter.
    rewrite (extract_nested _ _ Hid Hc), Hcid in Hafter. cbn [default] in Hafter.
    destruct Hafter as [(e & He & _)|[(id & Hx & Hf & _)|(id & t & name & Hx & _ & Hr)]];
      [discriminate He|injection Hx as <-; congruence|injection Hx as <-; eauto].
  - intros m Hj Hid Hc. rewrite Hj in Hafter. cbn [result_bind] in Hafter.
    assert (Hx : exists id, extract_contact_id (JObject m) = Returns id /\
                            Py.truthy id = false).
    { destruct Hc as [Hc|(c & Hc & Hcid)].
      - rewrite (extract_no_contact _ Hid Hc). eauto.
      - rewrite (extract_nested _ _ Hid Hc).
        destruct (c !! "id") as [v|]; cbn in *; eauto. }
    destruct Hx as (id0 & Hx & Hf). rewrite Hx in Hafter.
    destruct Hafter as [(e & He & _)|[(id & Hy & _ & Hr & Hrest)|(id & t & name & Hy & Ht & _)]];
      [discriminate He|done|injection Hy as <-; congruence].
  - intros call Hin.
    destruct Hafter as [(e & _ & _ & ->)|[(id & _ & _ & _ & ->)|(id & t & name & Hx & Ht & ->)]];
      [by apply elem_of_nil in Hin|by apply elem_of_nil in Hin|].
    apply list_elem_of_singleton in Hin as ->.
    destruct (json_ resp) as [body|e]; [|discriminate Hx]. cbn in Hx.
    exists body, id. repeat split; done.
Qed.

Lemma contact_id_from_two_shapes_witness :
  let r := run (book_appointment example_config example_request) net_ok in
  exists upsert appointment,
    r.2 = [upsert; appointment] /\
    status r.1 = 200 /\
    url appointment = calendar_url /\
    payload_field appointment "contactId" = Some (JString "c456").
Proof.
  intros r.
  assert (Hcalls : r.2 = example_contact_call :: tail r.2) by (vm_compute; reflexivity).
  assert (Hnet : net_ok [] example_contact_call
                 = Returns (respond 201 "{contact: {id: c456}}"
                     (Returns (Py.dict [("contact", Py.dict [("id", JString "c456")])]))))
    by reflexivity.
  pose proof (contact_id_from_two_shapes example_config example_request net_ok
    r.1 r.2 example_contact_call (tail r.2) _ (surjective_pairing r) Hcalls Hnet
    eq_refl) as (_ & _ & _ & Hnested & _ & Hsent).
  destruct (Hnested (Py.dict_map [("contact", Py.dict [("id", JString "c456")])])
              (Py.dict_map [("id", JString "c456")]) (JString "c456")
              eq_refl eq_refl eq_refl eq_refl eq_refl) as (t & name & Hrest).
  exists example_contact_call, (calendar_call example_config (JString "c456") t name).
  split; [by rewrite Hcalls, Hrest|].
  split; [by vm_compute|]. split; reflexivity.
Defined.

(** C4 (as stated) fails: a 201 whose body is [{"contact": null}] has
    neither shape, yet the reply is not "Failed to get contact ID" but the
    generic 500 of the outermost [except]. *)
Lemma null_contact_is_not_reported_as_missing_id :
  contact_id_by_shape (Py.dict [("contact", JNull)]) = None /\
  run (book_appointment example_config example_request) net_null_contact
    = (jsonify [("error", JString "'NoneType' object has no attribute 'get'")] 500,
       [example_contact_call]) /\
  reply_field
    (run (book_appointment example_config example_request) net_null_contact).1
    "error" <> Some (JString "Failed to get contact ID").
Proof.
  split; [by vm_compute|]. split; [by vm_compute|]. by vm_compute.
Qed.

(** *** Validation *)

Lemma find_first {A} (p : A -> bool) l x :
  List.find p l = Some x ->
  exists before after,
    l = before ++ x :: after /\ p x = true /\
    forall y, y ∈ before -> p y = false.
Proof.
  induction l as [|a l IH]; [done|]. cbn.
  destruct (p a) eqn:Ha.
  - intros [= ->]. exists [], l. split; [done|]. split; [done|].
    intros y Hy. by apply elem_of_nil in Hy.
  - intros Hf. destruct (IH Hf) as (before & after & -> & Hx & Hb).
    exists (a :: before), after. split; [done|]. split; [done|].
    intros y Hy. apply elem_of_cons in Hy as [->|Hy]; auto.
Qed.


Lemma first_missing_none m :
  first_missing required_fields (JObject m) = Returns None ->
  forall f, f ∈ required_fields -> is_Some (m !! f).
Proof.
  rewrite first_missing_object. intros Hfm f Hf.
  apply present_iff.
  apply (find_none (absent m) required_fields);
    [congruence | by apply list_elem_of_In].
Qed.

(** C5: a /book request whose JSON object lacks one of [name], [phone],
    [email], [selectedSlot] is answered 400 with a message naming the first
    missing field, and no call is made. *)
Theorem missing_field_is_rejected cfg request net reply calls m field :
  get_json request = Returns (JObject m) ->
  field ∈ required_fields ->
  m !! field = None ->
  run (book_appointment cfg request) net = (reply, calls) ->
  exists missing before after,
    required_fields = before ++ missing :: after /\
    m !! missing = None /\
    (forall f, f ∈ before -> is_Some (m !! f)) /\
    reply = jsonify [("error", JString ("Missing '" +:+ missing +:+ "' field"))]
              400 /\
    status reply = 400 /\
    calls = [].
Proof.
  intros Hbody Hfield Hnone Hrun.
  pose proof (first_missing_object required_fields m) as Hfm.
  destruct (List.find _ required_fields) as [missing|] eqn:Hfind.
  - destruct (find_first _ _ _ Hfind) as (before & after & Hsplit & Hm & Hb).
    exists missing, before, after. split; [done|].
    split; [|split].
    + apply negb_true_iff, bool_decide_eq_false in Hm.
      by apply eq_None_not_Some.
    + intros f Hf. by apply present_iff, Hb.
    + apply book_appointment_inv in Hrun.
      destruct Hrun;
        repeat match goal with
          | H : get_json request = _ |- _ =>
              rewrite Hbody in H; first [discriminate H | injection H as <-]
          | H : reaches_contact _ _ _ _ _ _ _ |- _ => destruct H
          end;
        try congruence.
      assert (field0 = missing) as -> by congruence. done.
  - pose proof (find_none _ _ Hfind field (proj1 (list_elem_of_In _ _) Hfield)) as Hp.
    apply present_iff in Hp. rewrite Hnone in Hp. by destruct Hp.
Qed.

Lemma missing_field_is_rejected_witness :
  let r := run (book_appointment example_config no_email_request) net_ok in
  get_json no_email_request = Returns (JObject no_email_fields) /\
  no_email_fields !! "email" = None /\
  r.1 = jsonify [("error", JString "Missing 'email' field")] 400 /\
  r.2 = [].
Proof.
  intros r.
  assert (Hbody : get_json no_email_request = Returns (JObject no_email_fields))
    by reflexivity.
  assert (Hnone : no_email_fields !! "email" = None) by reflexivity.
  assert (Hin : "email" ∈ required_fields) by set_solver.
  destruct (missing_field_is_rejected example_config no_email_request net_ok
              r.1 r.2 no_email_fields "email" Hbody Hin Hnone
              (surjective_pairing r))
    as (missing & before & after & _ & _ & _ & _ & _ & Hcalls).
  refine (conj Hbody (conj Hnone (conj _ Hcalls))).
  vm_compute. reflexivity.
Defined.

(** C6 (amended): a /book request whose [selectedSlot] the parser rejects
    ([fromisoformat] raises: a malformed string, non-numeric or out-of-range
    components, characters after the end of the time, a value that is not a
    string) is answered 400, with the parser's message when the other
    fields are there, and no call is made; nothing is booked in its place. *)
Theorem unparsable_slot_is_rejected cfg request net reply calls m slot e :
  get_json request = Returns (JObject m) ->
  m !! "selectedSlot" = Some slot ->
  Datetime.fromisoformat slot = Raises e ->
  run (book_appointment cfg request) net = (reply, calls) ->
  status reply = 400 /\
  calls = [] /\
  ((forall f, f ∈ required_fields -> is_Some (m !! f)) ->
   reply = jsonify [("error", JString ("Invalid datetime format: " +:+ exn_msg e))]
             400) /\
  Datetime.fromisoformat (JString "not-a-date")
    = Raises (Exn ValueError "Invalid isoformat string: 'not-a-date'") /\
  Datetime.fromisoformat (JString "2023-13-40T99:00:00")
    = Raises (Exn ValueError "month must be in 1..12") /\
  Datetime.fromisoformat (JString "2023-04-25Tab:00:00")
    = Raises (Exn ValueError "Invalid isoformat string: '2023-04-25Tab:00:00'") /\
  Datetime.fromisoformat (JString "2023-04-25T14:00:00xyz")
    = Raises (Exn ValueError "Invalid isoformat string: '2023-04-25T14:00:00xyz'") /\
  Datetime.fromisoformat JNull
    = Raises (Exn TypeError "fromisoformat: argument must be str").
Proof.
  intros Hbody Hslot Hparse Hrun.
  assert (Hfail : parse_selected_slot (JObject m) = Raises e).
  { unfold parse_selected_slot. rewrite (getitem_object _ _ _ Hslot).
    cbn [result_bind]. by rewrite Hparse. }
  assert (Hmain : status reply = 400 /\ calls = [] /\
    ((forall f, f ∈ required_fields -> is_Some (m !! f)) ->
     reply = jsonify [("error", JString ("Invalid datetime format: " +:+ exn_msg e))]
               400)).
  { apply book_appointment_inv in Hrun.
    pose proof (first_missing_object required_fields m) as Hfm.
    destruct Hrun;
      repeat match goal with
        | H : get_json request = _ |- _ =>
            rewrite Hbody in H; first [discriminate H | injection H as <-]
        | H : reaches_contact _ _ _ _ _ _ _ |- _ => destruct H
        end;
      try congruence.
    - split; [done|]. split; [done|]. intros Hall.
      pose proof (first_missing_all_present m Hall). congruence.
    - pose proof (first_missing_none m ltac:(done) "name" ltac:(set_solver)) as [v Hv].
      rewrite (getitem_object _ _ _ Hv) in *. discriminate.
    - rewrite Hfail in *.
      match goal with H : Raises _ = Raises _ |- _ => injection H as <- end.
      done. }
  destruct Hmain as (H1 & H2 & H3).
  split; [exact H1|]. split; [exact H2|]. split; [exact H3|].
  repeat split; vm_compute; reflexivity.
Qed.

Lemma unparsable_slot_is_rejected_witness :
  let r := run (book_appointment example_config bad_slot_request) net_ok in
  get_json bad_slot_request = Returns (JObject bad_slot_fields) /\
  Datetime.fromisoformat (JString "not-a-date")
    = Raises (Exn ValueError "Invalid isoformat string: 'not-a-date'") /\
  r.1 = jsonify [("error", JString
          "Invalid datetime format: Invalid isoformat string: 'not-a-date'")] 400 /\
  r.2 = [].
Proof.
  intros r.
  assert (Hbody : get_json bad_slot_request = Returns (JObject bad_slot_fields))
    by reflexivity.
  assert (Hparse : Datetime.fromisoformat (JString "not-a-date")
    = Raises (Exn ValueError "Invalid isoformat string: 'not-a-date'"))
    by (vm_compute; reflexivity).
  assert (Hall : forall f, f ∈ required_fields -> is_Some (bad_slot_fields !! f))
    by (apply all_present_by_evaluation; vm_compute; reflexivity).
  destruct (unparsable_slot_is_rejected example_config bad_slot_request net_ok
              r.1 r.2 bad_slot_fields _ _ Hbody eq_refl Hparse
              (surjective_pairing r))
    as (_ & Hcalls & Hreply & _).
  exact (conj Hbody (conj Hparse (conj (Hreply Hall) Hcalls))).
Defined.

(** C6 (as stated) fails: the parser keeps six digits of a fraction and
    drops the rest, and it accepts a NUL character after the seconds; such a
    slot is not answered 400 but booked, at the truncated time. *)
Lemma over_long_slot_is_truncated_and_booked :
  Datetime.fromisoformat (JString "2023-04-25T14:00:00.123456789")
    = Returns (Datetime.mkdatetime 2023 4 25 14 0 0 123456 None) /\
  status (run (book_appointment example_config long_fraction_request) net_ok).1
    = 200 /\
  reply_field (run (book_appointment example_config long_fraction_request) net_ok).1
    "scheduled_time" = Some (JString "2023-04-25T14:00:00.123456-05:00") /\
  map url (run (book_appointment example_config long_fraction_request) net_ok).2
    = [contact_url; calendar_url] /\
  Datetime.fromisoformat (JString nul_terminated_slot)
    = Returns (Datetime.mkdatetime 2023 4 25 14 0 0 0 None) /\
  run (book_appointment example_config nul_terminated_request) net_ok
    = run (book_appointment example_config example_request) net_ok /\
  status (run (book_appointment example_config nul_terminated_request) net_ok).1
    = 200.
Proof.
  repeat split; vm_compute; reflexivity.
Qed.

(** *** What reaching the network requires *)

Lemma payload_inputs_inv data email phone name :
  payload_inputs data = Returns (email, phone, name) ->
  exists m, data = JObject m /\ m !! "email" = Some email /\
            m !! "phone" = Some phone /\ m !! "name" = Some (JString name).
Proof.
  unfold payload_inputs. destruct data as [| | | | | |m]; try discriminate.
  cbn. intros H. exists m.
  destruct (m !! "email") as [e|]; [|discriminate]. cbn in H.
  destruct (m !! "phone") as [p|]; [|discriminate]. cbn in H.
  destruct (m !! "name") as [[| | | |n| |]|]; try discriminate. cbn in H.
  by injection H as -> -> ->.
Qed.

Lemma parse_selected_slot_inv m t :
  parse_selected_slot (JObject m) = Returns t ->
  exists slot naive,
    m !! "selectedSlot" = Some (JString slot) /\
    Datetime.fromisoformat_str slot = Returns naive /\
    Pytz.localize central naive = Returns t.
Proof.
  unfold parse_selected_slot. cbn [Py.getitem].
  destruct (m !! "selectedSlot") as [slot_value|]; cbn [result_bind];
    [|discriminate].
  destruct slot_value as [| | | |slot| |]; cbn [Datetime.fromisoformat result_bind];
    try discriminate.
  destruct (Datetime.fromisoformat_str slot) as [naive|] eqn:Hp;
    cbn [result_bind]; [|discriminate].
  eauto.
Qed.

(** C7 (amended): when a /book request reaches any network effect, its body
    was a JSON object with all four of [name], [phone], [email],
    [selectedSlot] as keys; moreover [name] is a string and [selectedSlot] a
    string that parses and localizes.  Nothing is required of the values of
    [phone] and [email], which are sent as they are. *)
Theorem network_effect_needs_the_four_keys cfg request net reply calls :
  run (book_appointment cfg request) net = (reply, calls) ->
  calls <> [] ->
  exists m name slot email phone,
    get_json request = Returns (JObject m) /\
    (forall f, f ∈ required_fields -> is_Some (m !! f)) /\
    m !! "name" = Some (JString name) /\
    m !! "selectedSlot" = Some (JString slot) /\
    m !! "email" = Some email /\
    m !! "phone" = Some phone /\
    (exists first rest,
      calls = first :: rest /\ url first = contact_url /\
      payload_field first "email" = Some email /\
      payload_field first "phone" = Some phone) /\
    exists naive t,
      Datetime.fromisoformat_str slot = Returns naive /\
      Pytz.localize central naive = Returns t.
Proof.
  intros Hrun Hcalls.
  apply book_appointment_inv in Hrun.
  assert (Hreach : forall data t email phone name rest,
    reaches_contact cfg request data t email phone name ->
    calls = contact_call cfg email phone name :: rest ->
    exists m name slot email phone,
      get_json request = Returns (JObject m) /\
      (forall f, f ∈ required_fields -> is_Some (m !! f)) /\
      m !! "name" = Some (JString name) /\
      m !! "selectedSlot" = Some (JString slot) /\
      m !! "email" = Some email /\
      m !! "phone" = Some phone /\
      (exists first rest,
        calls = first :: rest /\ url first = contact_url /\
        payload_field first "email" = Some email /\
        payload_field first "phone" = Some phone) /\
      exists naive t,
        Datetime.fromisoformat_str slot = Returns naive /\
        Pytz.localize central naive = Returns t).
  { intros data t email phone name rest [Hb Hv Ht _ Hi] ->.
    destruct (payload_inputs_inv _ _ _ _ Hi) as (m & -> & He & Hp & Hn).
    destruct (parse_selected_slot_inv _ _ Ht) as (slot & naive & Hs & Hpn & Hl).
    exists m, name, slot, email, phone.
    split; [done|]. split; [by apply first_missing_none|].
    do 4 (split; [done|]).
    split; [|by exists naive, t].
    exists (contact_call cfg email phone name), rest.
    split; [done|]. split; [reflexivity|]. split; reflexivity. }
  destruct Hrun; try (by destruct Hcalls); eapply Hreach; eauto.
Qed.

Lemma network_effect_needs_the_four_keys_witness :
  let r := run (book_appointment example_config null_phone_request) net_ok in
  r.2 <> [] /\
  get_json null_phone_request = Returns (JObject null_phone_fields) /\
  exists first rest, r.2 = first :: rest /\ payload_field first "phone" = Some JNull.
Proof.
  intros r.
  assert (Hcalls : r.2 <> []) by (vm_compute; discriminate).
  destruct (network_effect_needs_the_four_keys example_config null_phone_request
              net_ok r.1 r.2 (surjective_pairing r) Hcalls)
    as (m & name & slot & email & phone & Hbody & _ & _ & _ & _ & Hphone
        & (first & rest & Hsplit & _ & _ & Hsent) & _).
  injection Hbody as <-.
  split; [exact Hcalls|]. split; [reflexivity|].
  exists first, rest. split; [exact Hsplit|].
  rewrite Hsent. vm_compute in Hphone. congruence.
Defined.

(** C7 (as stated) fails: a body whose [phone] and [email] are null passes
    validation and is sent to the contact endpoint. *)
Lemma null_phone_reaches_the_crm :
  null_phone_fields !! "phone" = Some JNull /\
  get_json null_phone_request = Returns (JObject null_phone_fields) /\
  (run (book_appointment example_config null_phone_request) net_ok).1
    = jsonify [("success", JBool true);
               ("message", JString "Appointment booked successfully");
               ("scheduled_time", JString "2023-04-25T14:00:00-05:00");
               ("appointment", Py.dict [("id", JString "a789")])] 200 /\
  (run (book_appointment example_config null_phone_request) net_ok).2
    = [contact_call example_config JNull JNull "Jane Doe";
       calendar_call example_config (JString "c456") slot_2023_04_25 "Jane Doe"] /\
  payload_field (contact_call example_config JNull JNull "Jane Doe") "phone"
    = Some JNull.
Proof.
  repeat split; vm_compute; reflexivity.
Qed.

(** *** Rejections by the upstream services *)

(** The paths of [generate_voice] that make the call. *)
Lemma voice_rejection cfg request net reply calls before call after resp :
  run (generate_voice cfg request) net = (reply, calls) ->
  calls = before ++ call :: after ->
  net before call = Returns resp ->
  status_code resp <> 200 ->
  before = [] /\ after = [] /\
  (exists text_value, call = voice_call cfg text_value) /\
  reply = serve (jsonify [("error", JString "Failed to generate voice");
                          ("details", JString (text resp))] (status_code resp)).
Proof.
  cbv beta iota delta
    [run generate_voice try_except mbind mret M_bind M_ret lift requests_post].
  intros Hrun Hcalls Hnet Hbad.
  destruct (get_json request) as [data|e]; cbn [fst snd] in Hrun;
    [|injection Hrun as <- <-; by destruct before].
  destruct (if negb (Py.truthy data) then Returns true
            else result_bind (Py.contains "text" data) (fun b => Returns (negb b)))
    as [[|]|e]; cbn [fst snd] in Hrun;
    try (injection Hrun as <- <-; by destruct before).
  destruct (Py.getitem data "text") as [text_value|e]; cbn [fst snd] in Hrun;
    [|injection Hrun as <- <-; by destruct before].
  destruct (Py.slice_to text_value 50) as [prefix|e]; cbn [fst snd] in Hrun;
    [|injection Hrun as <- <-; by destruct before].
  destruct (negb (Py.env_truthy (ELEVENLABS_API_KEY cfg))); cbn [fst snd] in Hrun;
    [injection Hrun as <- <-; by destruct before|].
  destruct (negb (Py.env_truthy (ELEVENLABS_VOICE_ID cfg))); cbn [fst snd] in Hrun;
    [injection Hrun as <- <-; by destruct before|].
  fold (voice_call cfg text_value) in Hrun. cbn [app] in Hrun.
  destruct (net [] (voice_call cfg text_value)) as [r|e] eqn:Hcall;
    cbn [fst snd] in Hrun.
  - destruct (status_code r =? 200) eqn:Hcode; cbn [fst snd] in Hrun;
      injection Hrun as <- <-;
      apply singleton_split in Hcalls as (-> & -> & ->);
      rewrite Hcall in Hnet; injection Hnet as ->.
    + apply Z.eqb_eq in Hcode. by destruct Hbad.
    + repeat split; eauto.
  - injection Hrun as <- <-.
    apply singleton_split in Hcalls as (-> & -> & ->). congruence.
Qed.

Lemma serve_status r : status (serve r) = status r.
Proof. unfold serve. by destruct (has_no_body (status r)). Qed.

Lemma reply_keys k1 v1 k2 v2 code k :
  is_Some (reply_field (jsonify [(k1, v1); (k2, v2)] code) k) ->
  k = k1 \/ k = k2.
Proof.
  unfold reply_field, jsonify, Py.dict, Py.dict_map. cbn [body fold_left fst snd].
  destruct (decide (k = k2)) as [->|Hk2]; [by right|].
  destruct (decide (k = k1)) as [->|Hk1]; [by left|].
  rewrite lookup_insert_ne by done. rewrite lookup_insert_ne by done.
  rewrite lookup_empty. by intros [? ?].
Qed.

(** C8 (amended): a non-200 answer of the speech-synthesis provider makes
    /voice reply with the upstream status code as its own status, whatever
    its class; unless that status is one served without a body (1xx, 204,
    304), the reply is the JSON object with "Failed to generate voice" as
    [error] and the upstream body as [details].  An answer of a CRM endpoint
    other than 200 or 201 makes /book reply 500 with a JSON object made of
    [error] ("Failed to create contact" or "Failed to book appointment",
    after the endpoint that answered) and [details], the upstream body, and
    of nothing else: the upstream status code is not in the reply. *)
Theorem upstream_rejection_is_passed_on :
  (forall cfg request net reply calls before call after resp,
     run (generate_voice cfg request) net = (reply, calls) ->
     calls = before ++ call :: after ->
     net before call = Returns resp ->
     status_code resp <> 200 ->
     status reply = status_code resp /\
     (has_no_body (status_code resp) = true -> body reply = NoBody) /\
     (has_no_body (status_code resp) = false ->
      reply = jsonify [("error", JString "Failed to generate voice");
                       ("details", JString (text resp))] (status_code resp) /\
      reply_field reply "error" = Some (JString "Failed to generate voice") /\
      reply_field reply "details" = Some (JString (text resp)))) /\
  (forall cfg request net reply calls before call after resp,
     run (book_appointment cfg request) net = (reply, calls) ->
     calls = before ++ call :: after ->
     net before call = Returns resp ->
     success_status (status_code resp) = false ->
     status reply = 500 /\
     reply_field reply "details" = Some (JString (text resp)) /\
     ((url call = contact_url /\
       reply = jsonify [("error", JString "Failed to create contact");
                        ("details", JString (text resp))] 500) \/
      (url call = calendar_url /\
       reply = jsonify [("error", JString "Failed to book appointment");
                        ("details", JString (text resp))] 500)) /\
     (forall k, is_Some (reply_field reply k) -> k = "error" \/ k = "details")).
Proof.
  split.
  - intros cfg request net reply calls before call after resp Hrun Hcalls Hnet Hbad.
    destruct (voice_rejection _ _ _ _ _ _ _ _ _ Hrun Hcalls Hnet Hbad)
      as (_ & _ & _ & ->).
    split; [by rewrite serve_status|].
    unfold serve. cbn [status jsonify].
    split; intros ->; [reflexivity|]. repeat split; reflexivity.
  - intros cfg request net reply calls before call after resp Hrun Hcalls Hnet Hbad.
    destruct (crm_rejection _ _ _ _ _ _ _ _ _ Hrun Hcalls Hnet Hbad)
      as (_ & [(_ & Hurl & ->)|(upsert & _ & _ & Hurl & ->)]);
      (split; [reflexivity|]; split; [reflexivity|]; split;
       [|intros k; apply reply_keys]).
    + by left.
    + by right.
Qed.

Lemma upstream_rejection_is_passed_on_witness :
  (run (generate_voice example_config voice_request) net_voice_401).1
    = jsonify [("error", JString "Failed to generate voice");
               ("details", JString "unauthorized")] 401 /\
  (run (book_appointment example_config example_request) net_upsert_422).1
    = jsonify [("error", JString "Failed to create contact");
               ("details", JString "Unprocessable Entity")] 500.
Proof.
  destruct upstream_rejection_is_passed_on as [Hvoice Hbook].
  split.
  - destruct (Hvoice example_config voice_request net_voice_401 _ _ []
                (voice_call example_config (JString "hello")) []
                (respond 401 "unauthorized" not_json)
                (surjective_pairing _)) as (_ & _ & Hbody).
    + vm_compute. reflexivity.
    + reflexivity.
    + discriminate.
    + by destruct (Hbody eq_refl) as (-> & _).
  - destruct (Hbook example_config example_request net_upsert_422 _ _ []
                example_contact_call []
                (respond 422 "Unprocessable Entity" not_json)
                (surjective_pairing _)) as (_ & _ & [(_ & ->)|(Hurl & _)] & _).
    + vm_compute. reflexivity.
    + reflexivity.
    + reflexivity.
    + reflexivity.
    + discriminate Hurl.
Defined.

(** C8 (as stated) fails: a 401 from the speech-synthesis provider makes
    /voice reply 401, which is not in the 500 class. *)
Lemma voice_401_is_not_a_server_error :
  run (generate_voice example_config voice_request) net_voice_401
    = (jsonify [("error", JString "Failed to generate voice");
                ("details", JString "unauthorized")] 401,
       [voice_call example_config (JString "hello")]) /\
  ~ server_error_class
      (status (run (generate_voice example_config voice_request) net_voice_401).1).
Proof.
  split; [by vm_compute|].
  assert (H : status (run (generate_voice example_config voice_request)
                        net_voice_401).1 = 401) by (vm_compute; reflexivity).
  rewrite H. unfold server_error_class. lia.
Qed.

(** *** Splitting the name *)

Lemma find_ge c s : -1 <= Str.find c s.
Proof.
  induction s as [|a s IH]; cbn; [lia|].
  destruct (Ascii.eqb a c); [lia|]. destruct (Str.find c s <? 0) eqn:E; lia.
Qed.

Lemma find_cons c a s :
  Str.find c (String a s) = -1 <-> Ascii.eqb a c = false /\ Str.find c s = -1.
Proof.
  cbn. pose proof (find_ge c s).
  destruct (Ascii.eqb a c); [split; [discriminate|intros [? _]; discriminate]|].
  destruct (Str.find c s <? 0) eqn:E; split; try intros [_ ?]; try split; try lia; done.
Qed.

Lemma split_nonempty c s : Str.split c s <> [].
Proof.
  destruct s as [|a s]; cbn; [done|].
  destruct (Ascii.eqb a c); [done|]. by destruct (Str.split c s).
Qed.

Lemma split_without_separator c s :
  Str.find c s = -1 -> Str.split c s = [s].
Proof.
  induction s as [|a s IH]; [done|].
  intros [Ha Hs]%find_cons. cbn [Str.split]. rewrite Ha. by rewrite (IH Hs).
Qed.

Lemma append_nil s : "" +:+ s = s.
Proof. reflexivity. Qed.

Lemma append_cons a s t : String a s +:+ t = String a (s +:+ t).
Proof. reflexivity. Qed.

Lemma split_at_first_separator c a b :
  Str.find c a = -1 ->
  Str.split c (a +:+ String c b) = a :: Str.split c b.
Proof.
  induction a as [|x a IH].
  - intros _. rewrite append_nil. cbn [Str.split]. by rewrite Ascii.eqb_refl.
  - intros [Hx Ha]%find_cons. rewrite append_cons. cbn [Str.split].
    rewrite Hx. by rewrite (IH Ha).
Qed.

Lemma join_split c s : Str.join (String c "") (Str.split c s) = s.
Proof.
  induction s as [|a s IH]; [done|]. cbn.
  destruct (Ascii.eqb a c) eqn:E.
  - apply Ascii.eqb_eq in E as ->.
    pose proof (split_nonempty c s).
    destruct (Str.split c s) as [|p ps] eqn:Hs; [done|].
    cbn [Str.join]. cbn [Str.join] in IH.
    destruct ps; cbn; by rewrite <- IH.
  - destruct (Str.split c s) as [|p ps] eqn:Hs; [by destruct (split_nonempty c s)|].
    cbn [Str.join] in *. destruct ps; cbn; by rewrite <- IH.
Qed.

Lemma first_and_last_without_space name :
  Str.find " " name = -1 -> firstName name = name /\ lastName name = "".
Proof.
  intros H. unfold firstName, lastName.
  by rewrite (split_without_separator _ _ H).
Qed.

Lemma first_and_last_at_first_space a b :
  Str.find " " a = -1 ->
  firstName (a +:+ " " +:+ b) = a /\ lastName (a +:+ " " +:+ b) = b.
Proof.
  intros H. unfold firstName, lastName.
  change (a +:+ " " +:+ b) with (a +:+ String " " b).
  rewrite (split_at_first_separator _ _ b H). cbn [hd tail length].
  split; [done|].
  pose proof (split_nonempty " " b).
  destruct (Str.split " " b) as [|p ps] eqn:Hs; [done|].
  cbn [length Nat.ltb Nat.leb]. rewrite <- Hs. apply (join_split " ").
Qed.

Lemma clean_token_cons a t :
  clean_token (String a t) ->
  is_whitespace a = false /\ (t = "" \/ clean_token t).
Proof.
  intros [_ H]. cbn in H. apply andb_true_iff in H as [Ha Ht].
  apply negb_true_iff in Ha. split; [done|].
  destruct t; [by left|right]. split; done.
Qed.

Lemma clean_token_no_space t : clean_token t -> Str.find " " t = -1.
Proof.
  induction t as [|a t IH]; [done|].
  intros H. destruct (clean_token_cons _ _ H) as [Ha Ht].
  apply find_cons. split.
  - destruct (Ascii.eqb a " ") eqn:E; [|done].
    apply Ascii.eqb_eq in E as ->. discriminate Ha.
  - destruct Ht as [->|Ht]; [done|by apply IH].
Qed.

Lemma tokens_clean t : clean_token t -> tokens t = [t].
Proof.
  induction t as [|a t IH]; [by intros [? _]|].
  intros H. destruct (clean_token_cons _ _ H) as [Ha Ht].
  cbn [tokens]. rewrite Ha.
  destruct Ht as [->|Ht]; [done|].
  destruct t as [|b t]; [done|].
  destruct (clean_token_cons _ _ Ht) as [Hb _]. rewrite Hb.
  by rewrite (IH Ht).
Qed.

Lemma tokens_clean_then_space t rest :
  clean_token t -> tokens (t +:+ String " " rest) = t :: tokens rest.
Proof.
  induction t as [|a t IH]; [by intros [? _]|].
  intros H. destruct (clean_token_cons _ _ H) as [Ha Ht].
  rewrite append_cons. cbn [tokens]. rewrite Ha.
  destruct Ht as [->|Ht]; [done|].
  destruct t as [|b t]; [by destruct Ht|].
  destruct (clean_token_cons _ _ Ht) as [Hb _].
  rewrite append_cons. rewrite Hb.
  rewrite append_cons in IH. by rewrite (IH Ht).
Qed.

Lemma tokens_join toks :
  Forall clean_token toks -> tokens (Str.join " " toks) = toks.
Proof.
  induction 1 as [|t ts Ht Hts IH]; [done|].
  destruct ts as [|u ts]; [by apply tokens_clean|].
  change (Str.join " " (t :: u :: ts)) with (t +:+ String " " (Str.join " " (u :: ts))).
  by rewrite (tokens_clean_then_space _ _ Ht), IH.
Qed.

(** C9 (amended): the contact payload's [firstName] is the part of [name]
    before its first space character and [lastName] is the rest of [name]
    after that space, unchanged, or the empty string when [name] has no
    space; "Jane Doe Smith" gives "Jane" and "Doe Smith", "Prince" gives
    "Prince" and "".  For a name made of tokens without whitespace joined by
    single spaces these are the first token and the remaining tokens joined
    by a single space. *)
Theorem name_is_split_at_the_first_space cfg email phone name :
  payload_field (contact_call cfg email phone name) "firstName"
    = Some (JString (firstName name)) /\
  payload_field (contact_call cfg email phone name) "lastName"
    = Some (JString (lastName name)) /\
  (Str.find " " name = -1 -> firstName name = name /\ lastName name = "") /\
  (forall a b, name = a +:+ " " +:+ b -> Str.find " " a = -1 ->
     firstName name = a /\ lastName name = b) /\
  (forall toks, toks <> [] -> Forall clean_token toks ->
     name = Str.join " " toks ->
     firstName name = first_token name /\
     lastName name = remaining_tokens_joined name) /\
  firstName "Jane Doe Smith" = "Jane" /\ lastName "Jane Doe Smith" = "Doe Smith" /\
  firstName "Prince" = "Prince" /\ lastName "Prince" = "".
Proof.
  split; [reflexivity|]. split; [reflexivity|].
  split; [apply first_and_last_without_space|].
  split; [intros a b -> Ha; by apply first_and_last_at_first_space|].
  split; [|repeat split; reflexivity].
  intros toks Hne Hclean ->.
  unfold first_token, remaining_tokens_joined. rewrite (tokens_join _ Hclean).
  destruct Hclean as [|t ts Ht Hts]; [done|]. cbn [hd tail].
  pose proof (clean_token_no_space _ Ht) as Hspace.
  destruct ts as [|u ts].
  - by apply first_and_last_without_space.
  - change (Str.join " " (t :: u :: ts))
      with (t +:+ " " +:+ Str.join " " (u :: ts)).
    by apply first_and_last_at_first_space.
Qed.

Lemma name_is_split_at_the_first_space_witness :
  firstName "Jane Doe Smith" = first_token "Jane Doe Smith" /\
  lastName "Jane Doe Smith" = remaining_tokens_joined "Jane Doe Smith" /\
  firstName "Mary Ann" = "Mary" /\ lastName "Mary Ann" = "Ann".
Proof.
  destruct (name_is_split_at_the_first_space example_config JNull JNull
              "Jane Doe Smith") as (_ & _ & _ & _ & Htok & _).
  destruct (name_is_split_at_the_first_space example_config JNull JNull
              "Mary Ann") as (_ & _ & _ & Hsp & _).
  destruct (Htok ["Jane"; "Doe"; "Smith"]) as [H1 H2].
  - discriminate.
  - repeat constructor; discriminate.
  - reflexivity.
  - destruct (Hsp "Mary" "Ann" eq_refl eq_refl) as [H3 H4].
    exact (conj H1 (conj H2 (conj H3 H4))).
Defined.

(** C9 (as stated) fails: the name is split at space characters only, and
    at each of them.  With a tab between the two tokens the whole name
    becomes [firstName]; with two spaces the second one stays in front of
    [lastName]. *)
Lemma name_is_not_split_into_whitespace_tokens :
  tokens tabbed_name = ["Jane"; "Doe"] /\
  payload_field (contact_call example_config JNull JNull tabbed_name) "firstName"
    = Some (JString tabbed_name) /\
  payload_field (contact_call example_config JNull JNull tabbed_name) "lastName"
    = Some (JString "") /\
  firstName tabbed_name <> first_token tabbed_name /\
  lastName tabbed_name <> remaining_tokens_joined tabbed_name /\
  tokens "Jane  Doe" = ["Jane"; "Doe"] /\
  lastName "Jane  Doe" = " Doe" /\
  lastName "Jane  Doe" <> remaining_tokens_joined "Jane  Doe".
Proof.
  repeat split; try (vm_compute; reflexivity); vm_compute; discriminate.
Qed.

(** *** Bodies that are not JSON objects *)

Lemma first_missing_some fields v field :
  first_missing fields v = Returns (Some field) ->
  field ∈ fields /\ Py.contains field v = Returns false /\
  exists before after,
    fields = before ++ field :: after /\
    forall f, f ∈ before -> Py.contains f v = Returns true.
Proof.
  induction fields as [|f fields IH]; [discriminate|]. cbn [first_missing].
  destruct (Py.contains f v) as [[|]|e] eqn:Hc; [| |discriminate].
  - intros H. destruct (IH H) as (Hin & Hno & before & after & -> & Hb).
    split; [by right|]. split; [done|].
    exists (f :: before), after. split; [done|].
    intros g Hg. apply elem_of_cons in Hg as [->|Hg]; auto.
  - intros H. injection H as <-. split; [by left|]. split; [done|].
    exists [], fields. split; [done|].
    intros g Hg. by apply elem_of_nil in Hg.
Qed.

Lemma first_missing_no_field fields v :
  first_missing fields v = Returns None ->
  forall f, f ∈ fields -> Py.contains f v = Returns true.
Proof.
  induction fields as [|f fields IH]; intros H g Hg;
    [by apply elem_of_nil in Hg|].
  cbn in H. destruct (Py.contains f v) as [[|]|e] eqn:Hc; try discriminate.
  apply elem_of_cons in Hg as [->|Hg]; [done|by apply IH].
Qed.

Lemma first_missing_sequence fields v :
  is_sequence v = true -> exists o, first_missing fields v = Returns o.
Proof.
  intros Hv. induction fields as [|f fields [o IH]]; [by eexists|].
  cbn [first_missing].
  assert (Hc : exists b, Py.contains f v = Returns b)
    by (destruct v; try discriminate Hv; by eexists).
  destruct Hc as [[|] ->]; eauto.
Qed.

Lemma first_missing_scalar v :
  is_scalar v = true ->
  first_missing required_fields v = Raises (not_iterable v).
Proof. by destruct v. Qed.

(** C10 (amended): a /book request whose body is not a JSON object never
    leads to a CRM call.  When the body is absent (decoding raises or gives
    [None]), or is a number or a boolean, the membership test or the
    decoding raises and the reply is the generic 500 with the exception's
    message.  When the body is a JSON array or string the membership test
    does not raise: the reply is the 400 missing-field error for the first
    field name the body does not contain, and the generic 500 of the failed
    subscript only if it contains all four. *)
Theorem body_that_is_not_an_object cfg request net reply calls :
  run (book_appointment cfg request) net = (reply, calls) ->
  (forall m, get_json request <> Returns (JObject m)) ->
  calls = [] /\
  (forall e, get_json request = Raises e -> reply = error_reply e) /\
  (forall v, get_json request = Returns v -> is_scalar v = true ->
     reply = error_reply (not_iterable v)) /\
  (forall v, get_json request = Returns v -> is_sequence v = true ->
     (exists field,
        field ∈ required_fields /\ Py.contains field v = Returns false /\
        reply = jsonify [("error", JString ("Missing '" +:+ field +:+ "' field"))]
                  400 /\
        exists before after,
          required_fields = before ++ field :: after /\
          forall f, f ∈ before -> Py.contains f v = Returns true) \/
     ((forall f, f ∈ required_fields -> Py.contains f v = Returns true) /\
      exists e, Py.getitem v "name" = Raises e /\ reply = error_reply e)).
Proof.
  intros Hrun Hno.
  apply book_appointment_inv in Hrun.
  assert (Hname : forall data v, get_json request = Returns data ->
                  Py.getitem data "name" = Returns v -> False).
  { intros data v Hd Hg. destruct data as [| | | | | |m]; try discriminate Hg.
    by destruct (Hno m). }
  assert (Hreach : forall data t email phone name,
            reaches_contact cfg request data t email phone name -> False).
  { intros data t email phone name [Hb _ _ _ Hi].
    destruct (payload_inputs_inv _ _ _ _ Hi) as (m & -> & _).
    by destruct (Hno m). }
  destruct Hrun as
    [ e Hbody
    | data e Hbody Hvalid
    | data field Hbody Hvalid
    | data e Hbody Hvalid Hn
    | data nv e Hbody Hvalid Hn _
    | data nv t Hbody Hvalid Hn _ _
    | data nv t e Hbody Hvalid Hn _ _ _
    | data t email phone name e Hr _
    | data t email phone name resp Hr _ _
    | data t email phone name resp e Hr _ _ _
    | data t email phone name resp id Hr _ _ _ _
    | data t email phone name id e Hr _ _
    | data t email phone name id resp e Hr _ _ _ _
    | data t email phone name id resp appointment Hr _ _ _ _
    | data t email phone name id resp Hr _ _ _ ];
    try (by destruct (Hname _ _ Hbody Hn));
    try (by destruct (Hreach _ _ _ _ _ Hr)).
  - (* the body cannot be decoded *)
    split; [done|]. split; [intros e' He'; congruence|].
    split; intros v Hv; congruence.
  - (* the membership test raises *)
    split; [done|]. split; [intros e' He'; congruence|].
    split; intros v Hv Hk; rewrite Hv in Hbody; injection Hbody as <-.
    + rewrite (first_missing_scalar _ Hk) in Hvalid. by injection Hvalid as <-.
    + destruct (first_missing_sequence required_fields _ Hk) as [o Ho].
      congruence.
  - (* a field name is not in the body *)
    split; [done|]. split; [intros e' He'; congruence|].
    split; intros v Hv Hk; rewrite Hv in Hbody; injection Hbody as <-.
    + rewrite (first_missing_scalar _ Hk) in Hvalid. discriminate.
    + left. exists field.
      destruct (first_missing_some _ _ _ Hvalid) as (H1 & H2 & H3). done.
  - (* all four names are in the body, which cannot be subscripted *)
    split; [done|]. split; [intros e' He'; congruence|].
    split; intros v Hv Hk; rewrite Hv in Hbody; injection Hbody as <-.
    + rewrite (first_missing_scalar _ Hk) in Hvalid. discriminate.
    + right. split; [by apply first_missing_no_field|eauto].
Qed.

Lemma body_that_is_not_an_object_witness :
  let r := run (book_appointment example_config null_request) net_ok in
  r.1 = error_reply (not_iterable JNull) /\
  reply_field r.1 "error"
    = Some (JString "argument of type 'NoneType' is not iterable") /\
  status r.1 = 500 /\ r.2 = [].
Proof.
  intros r.
  assert (Hno : forall m, get_json null_request <> Returns (JObject m))
    by (intros m; discriminate).
  destruct (body_that_is_not_an_object example_config null_request net_ok
              r.1 r.2 (surjective_pairing r) Hno) as (Hcalls & _ & Hscalar & _).
  pose proof (Hscalar JNull eq_refl eq_refl) as Hreply.
  split; [exact Hreply|]. rewrite Hreply.
  split; [reflexivity|]. split; [reflexivity|exact Hcalls].
Defined.

(** C10 (as stated) fails: the body [[]] is not a JSON object, the
    membership test on it does not raise, and the reply is the 400
    missing-field error. *)
Lemma array_body_gets_the_missing_field_error :
  get_json array_request = Returns (JArray []) /\
  Py.contains "name" (JArray []) = Returns false /\
  run (book_appointment example_config array_request) net_ok
    = (jsonify [("error", JString "Missing 'name' field")] 400, []).
Proof.
  repeat split; vm_compute; reflexivity.
Qed.

